(** * Cross-channel advertising dashboard: the aggregation core of [app.py]

    A shallow embedding of the metric computations of [main] in [src/app.py]
    (overall KPIs, the per-platform table, the time-series fallback) together
    with the control flow that selects them (loaders, emptiness checks).

    Numeric model.  The data frame columns are numeric columns fetched from
    SQL.  Counters ([impressions], [clicks], [conversions]) are integers and
    are modelled by [Z]; [spend] is a decimal amount and is modelled by an
    exact rational [Q].  Values computed by a division are pandas/numpy
    float64 values: they are modelled by [f64], a rational or one of the
    three IEEE special values that a division by zero produces ([inf], [-inf],
    [nan]).  Signed zeros are not modelled.

    The computations are read twice.  The exact reading ([tot_spend],
    [by_platform], [qround], ...) does the arithmetic on rationals without
    rounding error; it serves for the structure of the results and for what
    does not depend on the last digits.  The double-precision reading
    ([tot_spend64], [by_platform64], [round64], ...) rounds every operation
    to the nearest double and adds in the order numpy and pandas add; it
    serves for the exact values that the program produces. *)

From Stdlib Require Import ZArith QArith Qround Qabs Qpower List String Ascii Bool.
From Stdlib Require Import Lia Lqa Sorted Permutation DecimalString OrderedTypeEx.
Import ListNotations.

Local Open Scope Z_scope.

(* ------------------------------------------------------------------ *)
(** ** float64 values as produced by pandas arithmetic *)

Inductive f64 : Type :=
| Fin (q : Q)
| PInf
| NInf
| NaN.

Definition of_int (z : Z) : f64 := Fin (inject_Z z).

(** [pd.notna] *)
Definition notna (x : f64) : bool :=
  match x with NaN => false | _ => true end.

Definition Qsign (q : Q) : comparison := Qcompare q 0.

(** Series division [a / b]: a zero denominator gives [inf], [-inf] or [nan]
    according to the sign of the numerator; nothing is raised. *)
Definition fdiv (a b : f64) : f64 :=
  match a, b with
  | NaN, _ | _, NaN => NaN
  | Fin x, Fin y =>
      match Qsign y with
      | Eq => match Qsign x with Gt => PInf | Lt => NInf | Eq => NaN end
      | _ => Fin (x / y)
      end
  | Fin _, (PInf | NInf) => Fin 0
  | PInf, Fin y => match Qsign y with Lt => NInf | _ => PInf end
  | NInf, Fin y => match Qsign y with Lt => PInf | _ => NInf end
  | (PInf | NInf), (PInf | NInf) => NaN
  end.

Definition fmul (a b : f64) : f64 :=
  match a, b with
  | NaN, _ | _, NaN => NaN
  | Fin x, Fin y => Fin (x * y)
  | Fin x, PInf | PInf, Fin x =>
      match Qsign x with Gt => PInf | Lt => NInf | Eq => NaN end
  | Fin x, NInf | NInf, Fin x =>
      match Qsign x with Gt => NInf | Lt => PInf | Eq => NaN end
  | PInf, PInf | NInf, NInf => PInf
  | PInf, NInf | NInf, PInf => NInf
  end.

(** Round to the nearest integer, ties to the even one (numpy [rint]). *)
Definition rint (x : Q) : Z :=
  let f := Qfloor x in
  match Qcompare (x - inject_Z f) (1 # 2) with
  | Lt => f
  | Gt => f + 1
  | Eq => if Z.even f then f else f + 1
  end.

Definition pow10 (d : nat) : Z := 10 ^ Z.of_nat d.

(** [round(x, d)] on a finite value: scale, [rint], unscale, without
    rounding error ([round64] is the same on doubles). *)
Definition qround (d : nat) (x : Q) : Q :=
  inject_Z (rint (x * inject_Z (pow10 d))) / inject_Z (pow10 d).

(** [Series.round(d)]: the special values are left as they are. *)
Definition fround (d : nat) (x : f64) : f64 :=
  match x with
  | Fin q => Fin (qround d q)
  | other => other
  end.

(** [Series.replace(0, float("nan"))] on an integer column. *)
Definition replace_zero_nan (z : Z) : f64 :=
  if z =? 0 then NaN else of_int z.

Fixpoint sumQ (l : list Q) : Q :=
  match l with
  | [] => 0%Q
  | x :: r => (x + sumQ r)%Q
  end.

Fixpoint sumZ (l : list Z) : Z :=
  match l with
  | [] => 0
  | x :: r => x + sumZ r
  end.

(* ------------------------------------------------------------------ *)
(** ** Number formatting (Python format specifications) *)

Local Open Scope string_scope.

Definition dec_string (z : Z) : string :=
  NilZero.string_of_uint (N.to_uint (Z.to_N z)).

Fixpoint zeros (n : nat) : string :=
  match n with
  | O => ""
  | S n' => "0" ++ zeros n'
  end.

(** Left-pad a digit string with zeros to [d] characters. *)
Definition zero_pad (d : nat) (s : string) : string :=
  zeros (d - String.length s) ++ s.

(** Insert the thousands separators of the [,] format option. *)
Fixpoint commas_rev (l : list ascii) (n : nat) : list ascii :=
  match l with
  | [] => []
  | c :: r =>
      match n, r with
      | 2%nat, _ :: _ => c :: ","%char :: commas_rev r 0
      | _, _ => c :: commas_rev r (S n)
      end
  end.

Definition commas (s : string) : string :=
  string_of_list_ascii
    (rev (commas_rev (rev (list_ascii_of_string s)) 0)).

(** [format(x, ",.df")] when [grouped], [format(x, ".df")] otherwise: the
    decimal digits of the number that [x] stands for, correctly rounded. *)
Definition format_f (grouped : bool) (d : nat) (x : f64) : string :=
  match x with
  | NaN => "nan"
  | PInf => "inf"
  | NInf => "-inf"
  | Fin q =>
      let k := rint (Qabs q * inject_Z (pow10 d)) in
      let ip := dec_string (k / pow10 d) in
      let fp := zero_pad d (dec_string (k mod pow10 d)) in
      (match Qsign q with Lt => "-" | _ => "" end)
        ++ (if grouped then commas ip else ip)
        ++ (match d with O => "" | _ => "." ++ fp end)
  end.

Local Open Scope list_scope.
Local Open Scope Z_scope.

(* ------------------------------------------------------------------ *)
(** ** Data model *)

(** A calendar date, as its day ordinal. *)
Definition Date := Z.

(** One row of [unified_ads] (the columns of the SELECT in the loaders). *)
Record UnifiedRecord : Type := mkRecord {
  date : Date;
  platform : string;
  campaign_id : string;
  campaign_name : string;
  ad_group_id : string;
  ad_group_name : string;
  impressions : Z;
  clicks : Z;
  spend : Q;
  conversions : Z
}.

Definition DataFrame := list UnifiedRecord.

(** One row of [unified_ads_daily_summary]. *)
Record DailyRow : Type := mkDaily {
  d_date : Date;
  d_platform : string;
  d_impressions : Z;
  d_clicks : Z;
  d_spend : Q;
  d_conversions : Z;
  d_ctr : f64;
  d_cost_per_conversion : f64
}.

Definition DailyFrame := list DailyRow.

(** [DataFrame.empty] (the column set is fixed by the query). *)
Definition empty {A : Type} (df : list A) : bool :=
  match df with [] => true | _ => false end.

(* ------------------------------------------------------------------ *)
(** ** [groupby]: rows collected per key, keys in sorted order *)

(** Keys that [groupby] can sort come with a three-way comparison. *)
Class GroupKey (K : Type) : Type := {
  kcmp : K -> K -> comparison
}.

(** The comparison is a strict total order. *)
Class GroupKeyOk (K : Type) `{GroupKey K} : Prop := {
  kcmp_eq : forall a b, kcmp a b = Eq <-> a = b;
  kcmp_antisym : forall a b, kcmp a b = CompOpp (kcmp b a);
  kcmp_trans : forall a b c, kcmp a b = Lt -> kcmp b c = Lt -> kcmp a c = Lt
}.

Definition klt {K : Type} `{GroupKey K} (a b : K) : Prop := kcmp a b = Lt.

Definition keqb {K : Type} `{GroupKey K} (a b : K) : bool :=
  match kcmp a b with Eq => true | _ => false end.

Section GroupBy.
Context {K R : Type} `{GroupKey K}.
Variable key : R -> K.

(** Add row [r] to the group of key [k], creating the group at its sorted
    position when the key is new; rows keep their order of appearance. *)
Fixpoint add_to_group (k : K) (r : R) (groups : list (K * list R))
  : list (K * list R) :=
  match groups with
  | [] => [(k, [r])]
  | (k', rows) :: rest =>
      match kcmp k k' with
      | Lt => (k, [r]) :: groups
      | Eq => (k', rows ++ [r]) :: rest
      | Gt => (k', rows) :: add_to_group k r rest
      end
  end.

(** [df.groupby(key)] with the default [sort=True]. *)
Definition groupby (df : list R) : list (K * list R) :=
  fold_left (fun groups r => add_to_group (key r) r groups) df [].

Definition keys (groups : list (K * list R)) : list K := map fst groups.

(** The sum of column [f] over all groups, group by group. *)
Definition groups_sumQ (f : R -> Q) (groups : list (K * list R)) : Q :=
  sumQ (map (fun g => sumQ (map f (snd g))) groups).

(** The rows of the group of [k] ([[]] when there is none). *)
Fixpoint group_rows (k : K) (groups : list (K * list R)) : list R :=
  match groups with
  | [] => []
  | (k', rows) :: rest => if keqb k k' then rows else group_rows k rest
  end.
End GroupBy.

(** *** Key orders: platform names, dates, and (date, platform) pairs *)

#[export] Instance string_key : GroupKey string := {| kcmp := String.compare |}.

#[export] Instance date_key : GroupKey Date := {| kcmp := Z.compare |}.

(** Several grouping columns are compared lexicographically. *)
Definition lex_cmp {A B : Type} `{GroupKey A} `{GroupKey B}
  (x y : A * B) : comparison :=
  match kcmp (fst x) (fst y) with
  | Eq => kcmp (snd x) (snd y)
  | c => c
  end.

#[export] Instance pair_key {A B : Type} `{GroupKey A} `{GroupKey B}
  : GroupKey (A * B) := {| kcmp := lex_cmp |}.

(* ------------------------------------------------------------------ *)
(** ** Overall KPIs ([main], "Key metrics") *)

(** The totals; the spend total without rounding error ([tot_spend64] is
    the float sum). *)
Definition tot_spend (df : DataFrame) : Q := sumQ (map spend df).
Definition tot_impressions (df : DataFrame) : Z := sumZ (map impressions df).
Definition tot_clicks (df : DataFrame) : Z := sumZ (map clicks df).
Definition tot_conversions (df : DataFrame) : Z := sumZ (map conversions df).

(** Truth value of a number in a conditional. *)
Definition truthy (z : Z) : bool := negb (z =? 0).

Definition overall_cpc (df : DataFrame) : f64 :=
  if truthy (tot_clicks df)
  then fdiv (Fin (tot_spend df)) (of_int (tot_clicks df))
  else Fin 0.

Definition overall_cpa (df : DataFrame) : f64 :=
  if truthy (tot_conversions df)
  then fdiv (Fin (tot_spend df)) (of_int (tot_conversions df))
  else Fin 0.

Definition overall_ctr (df : DataFrame) : f64 :=
  if truthy (tot_impressions df)
  then fmul (fdiv (of_int (tot_clicks df)) (of_int (tot_impressions df)))
            (Fin 100)
  else Fin 0.

(** The six [st.metric] tiles: label and displayed value. *)
Definition metrics (df : DataFrame) : list (string * string) :=
  [ ("Total spend", "$" ++ format_f true 0 (Fin (tot_spend df)));
    ("Impressions", format_f true 0 (of_int (tot_impressions df)));
    ("Clicks", format_f true 0 (of_int (tot_clicks df)));
    ("Conversions", format_f true 0 (of_int (tot_conversions df)));
    ("CTR %", format_f false 2 (overall_ctr df) ++ "%");
    ("Cost per conversion", "$" ++ format_f true 2 (overall_cpa df)) ]%string.

(* ------------------------------------------------------------------ *)
(** ** Platform aggregator ([main], "Performance by platform") *)

Record PlatformSummary : Type := mkSummary {
  p_platform : string;
  p_spend : Q;
  p_impressions : Z;
  p_clicks : Z;
  p_conversions : Z;
  ctr_pct : f64;
  cost_per_conv : f64;
  share_of_spend : f64
}.

(** [df.groupby("platform", as_index=False).agg(... "sum")]: one row of sums
    per platform. *)
Record PlatformSums : Type := mkSums {
  s_platform : string;
  s_spend : Q;
  s_impressions : Z;
  s_clicks : Z;
  s_conversions : Z
}.

Definition agg_platform (g : string * list UnifiedRecord) : PlatformSums :=
  {| s_platform := fst g;
     s_spend := sumQ (map spend (snd g));
     s_impressions := sumZ (map impressions (snd g));
     s_clicks := sumZ (map clicks (snd g));
     s_conversions := sumZ (map conversions (snd g)) |}.

Definition platform_sums (df : DataFrame) : list PlatformSums :=
  map agg_platform (groupby platform df).

(** The three derived columns, computed on whole columns. *)
Definition derive (spend_sum : Q) (s : PlatformSums) : PlatformSummary :=
  {| p_platform := s_platform s;
     p_spend := s_spend s;
     p_impressions := s_impressions s;
     p_clicks := s_clicks s;
     p_conversions := s_conversions s;
     ctr_pct :=
       fround 2 (fmul (fdiv (of_int (s_clicks s)) (of_int (s_impressions s)))
                      (Fin 100));
     cost_per_conv :=
       fround 2 (fdiv (Fin (s_spend s)) (replace_zero_nan (s_conversions s)));
     share_of_spend :=
       fround 1 (fmul (fdiv (Fin (s_spend s)) (Fin spend_sum)) (Fin 100)) |}.

Definition by_platform (df : DataFrame) : list PlatformSummary :=
  let sums := platform_sums df in
  map (derive (sumQ (map s_spend sums))) sums.

(** The string shown where [cost_per_conv] is missing, as written in the
    source file. *)
Definition no_value : string := "â€”".

(** The formatted table handed to [st.dataframe]. *)
Record DisplayRow : Type := mkDisplay {
  v_platform : string;
  v_spend : string;
  v_impressions : string;
  v_clicks : string;
  v_conversions : string;
  v_ctr_pct : string;
  v_cost_per_conv : string;
  v_share_of_spend : string
}.

Definition fmt_cost_per_conv (x : f64) : string :=
  if notna x then ("$" ++ format_f false 2 x)%string else no_value.

Definition display_row (p : PlatformSummary) : DisplayRow :=
  {| v_platform := p_platform p;
     v_spend := ("$" ++ format_f true 0 (Fin (p_spend p)))%string;
     v_impressions := format_f true 0 (of_int (p_impressions p));
     v_clicks := format_f true 0 (of_int (p_clicks p));
     v_conversions := format_f true 0 (of_int (p_conversions p));
     v_ctr_pct := (format_f false 2 (ctr_pct p) ++ "%")%string;
     v_cost_per_conv := fmt_cost_per_conv (cost_per_conv p);
     v_share_of_spend := (format_f false 1 (share_of_spend p) ++ "%")%string |}.

Definition display_df (df : DataFrame) : list DisplayRow :=
  map display_row (by_platform df).

(** [dropna(subset=["cost_per_conv"])] for the efficiency chart (drawn when
    the result is not empty). *)
Definition eff (df : DataFrame) : list PlatformSummary :=
  filter (fun p => notna (cost_per_conv p)) (by_platform df).

(* ------------------------------------------------------------------ *)
(** ** Time-series aggregator ([main], "Spend and conversions over time") *)

(** One line of a chart: [name], the x values and the y values. *)
Record Trace : Type := mkTrace {
  name : string;
  xs : list Date;
  ys : list Q
}.

(** [Series.unique()]: distinct values in order of first appearance. *)
Fixpoint unique (l : list string) : list string :=
  match l with
  | [] => []
  | x :: r => x :: filter (fun y => negb (String.eqb y x)) (unique r)
  end.

(** The loop [for platform in daily["platform"].unique()] building one
    [go.Scatter] per platform from [sub = daily[daily["platform"] == platform]]. *)
Definition daily_traces (y : DailyRow -> Q) (daily : DailyFrame) : list Trace :=
  map (fun p =>
         let sub := filter (fun r => String.eqb (d_platform r) p) daily in
         {| name := p; xs := map d_date sub; ys := map y sub |})
      (unique (map d_platform daily)).

(** A row of [daily_alt]. *)
Record DailyAlt : Type := mkAlt {
  a_date : Date;
  a_platform : string;
  a_spend : Q;
  a_conversions : Z
}.

Definition agg_daily (g : (Date * string) * list UnifiedRecord) : DailyAlt :=
  {| a_date := fst (fst g);
     a_platform := snd (fst g);
     a_spend := sumQ (map spend (snd g));
     a_conversions := sumZ (map conversions (snd g)) |}.

(** [df.groupby(["date", "platform"]).agg({"spend": "sum",
    "conversions": "sum"}).reset_index()] *)
Definition daily_alt (df : DataFrame) : list DailyAlt :=
  map agg_daily (groupby (fun r => (date r, platform r)) df).

(** [px.line(daily_alt, x="date", y="spend", color="platform")]: one line per
    platform, points in row order. *)
Definition line_traces (rows : list DailyAlt) : list Trace :=
  map (fun p =>
         let sub := filter (fun r => String.eqb (a_platform r) p) rows in
         {| name := p; xs := map a_date sub; ys := map a_spend sub |})
      (unique (map a_platform rows)).

Inductive TimeSeries : Type :=
| FromDaily (fig_time fig_conv_time : list Trace)
| FromRaw (rows : list DailyAlt) (fig_time : list Trace).

(** The branch on [daily is not None and not daily.empty]. *)
Definition over_time (df : DataFrame) (daily : option DailyFrame) : TimeSeries :=
  match daily with
  | Some d =>
      if negb (empty d)
      then FromDaily (daily_traces d_spend d)
                     (daily_traces (fun r => inject_Z (d_conversions r)) d)
      else FromRaw (daily_alt df) (line_traces (daily_alt df))
  | None => FromRaw (daily_alt df) (line_traces (daily_alt df))
  end.

(* ------------------------------------------------------------------ *)
(** ** Loaders *)

(** A call that either returns or raises an exception. *)
Inductive result (A : Type) : Type :=
| Returned (a : A)
| Raised (e : string).
Arguments Returned {A} a.
Arguments Raised {A} e.

(** The backing stores: what running each query gives, as a function of the
    connection parameters. *)
Record Backend : Type := mkBackend {
  pg_unified_ads : string -> result DataFrame;
  pg_unified_ads_daily_summary : string -> result DailyFrame;
  bq_unified_ads : string -> string -> result DataFrame;
  bq_unified_ads_daily_summary : string -> string -> result DailyFrame
}.

(** White space in the sense of [str.strip]: the characters for which
    [str.isspace] holds.  A Python string is held as its UTF-8 bytes, so a
    white-space character is one byte (U+0009-000D, U+001C-0020), two bytes
    (U+0085, U+00A0) or three bytes (U+1680, U+2000-200A, U+2028, U+2029,
    U+202F, U+205F, U+3000). *)
Definition is_space (c : ascii) : bool :=
  let n := N_of_ascii c in
  ((9 <=? n) && (n <=? 13) || (28 <=? n) && (n <=? 32))%N.

Definition is_space2 (c1 c2 : ascii) : bool :=
  let n1 := N_of_ascii c1 in
  let n2 := N_of_ascii c2 in
  ((n1 =? 194) && ((n2 =? 133) || (n2 =? 160)))%N.

Definition is_space3 (c1 c2 c3 : ascii) : bool :=
  let n1 := N_of_ascii c1 in
  let n2 := N_of_ascii c2 in
  let n3 := N_of_ascii c3 in
  ((n1 =? 225) && (n2 =? 154) && (n3 =? 128)
   || (n1 =? 226) && (n2 =? 128)
      && ((128 <=? n3) && (n3 <=? 138) || (n3 =? 168) || (n3 =? 169)
          || (n3 =? 175))
   || (n1 =? 226) && (n2 =? 129) && (n3 =? 159)
   || (n1 =? 227) && (n2 =? 128) && (n3 =? 128))%N.

(** [str.lstrip()] *)
Fixpoint lstrip (s : string) : string :=
  match s with
  | EmptyString => s
  | String c1 r1 =>
      if is_space c1 then lstrip r1
      else match r1 with
           | EmptyString => s
           | String c2 r2 =>
               if is_space2 c1 c2 then lstrip r2
               else match r2 with
                    | EmptyString => s
                    | String c3 r3 =>
                        if is_space3 c1 c2 c3 then lstrip r3 else s
                    end
           end
  end.

(** [lstrip] on the characters of a text taken last first: the bytes of a
    white-space character come in reverse order. *)
Fixpoint lstrip_reversed (l : list ascii) : list ascii :=
  match l with
  | [] => l
  | c1 :: r1 =>
      if is_space c1 then lstrip_reversed r1
      else match r1 with
           | [] => l
           | c2 :: r2 =>
               if is_space2 c2 c1 then lstrip_reversed r2
               else match r2 with
                    | [] => l
                    | c3 :: r3 =>
                        if is_space3 c3 c2 c1 then lstrip_reversed r3 else l
                    end
           end
  end.

(** [str.rstrip()] *)
Definition rstrip (s : string) : string :=
  string_of_list_ascii
    (rev (lstrip_reversed (rev (list_ascii_of_string s)))).

(** [str.strip()] *)
Definition strip (s : string) : string := rstrip (lstrip s).

Definition nonempty (s : string) : bool := negb (String.eqb s "").

(** The guard [not url or not url.strip().startswith("postgresql")]. *)
Definition bad_url (url : string) : bool :=
  negb (nonempty url) || negb (String.prefix "postgresql" (strip url)).

Definition load_unified_from_postgres (b : Backend) (url : string)
  : result (option DataFrame) :=
  if bad_url url then Returned None
  else match pg_unified_ads b url with
       | Returned df => Returned (Some df)
       | Raised e => Raised e
       end.

(** The query runs inside [try ... except Exception: return None]. *)
Definition load_daily_from_postgres (b : Backend) (url : string)
  : result (option DailyFrame) :=
  if bad_url url then Returned None
  else match pg_unified_ads_daily_summary b url with
       | Returned d => Returned (Some d)
       | Raised _ => Returned None
       end.

Definition load_unified_from_bigquery (b : Backend) (project dataset : string)
  : result (option DataFrame) :=
  if negb (nonempty project) || negb (nonempty dataset) then Returned None
  else match bq_unified_ads b project dataset with
       | Returned df => Returned (Some df)
       | Raised e => Raised e
       end.

Definition load_daily_from_bigquery (b : Backend) (project dataset : string)
  : result (option DailyFrame) :=
  if negb (nonempty project) || negb (nonempty dataset) then Returned None
  else match bq_unified_ads_daily_summary b project dataset with
       | Returned d => Returned (Some d)
       | Raised _ => Returned None
       end.

(* ------------------------------------------------------------------ *)
(** ** [main] *)

Inductive Database : Type := Supabase | BigQuery.

(** What the page reads from its surroundings: configuration
    ([get_database_url], [get_bq_config]) and the sidebar widgets. *)
Record Session : Type := mkSession {
  cfg_database_url : string;
  cfg_project : string;
  cfg_dataset : string;
  use_supabase : Database;
  url_input : string;
  project_input : string;
  dataset_input : string
}.

Record Dashboard : Type := mkDashboard {
  key_metrics : list (string * string);
  platform_table : list PlatformSummary;
  platform_display : list DisplayRow;
  time_series : TimeSeries;
  efficiency : list PlatformSummary;
  caption : string
}.

(** What [main] leaves on the page when it returns. *)
Inductive Page : Type :=
| ErrorPage (error : string)
| SetupPage (db : Database)
| NoDataPage
| DashboardPage (d : Dashboard).

(** The part of [main] after the loads. *)
Definition render (label : string) (df : option DataFrame)
  (daily : option DailyFrame) : Page :=
  match df with
  | None => NoDataPage
  | Some df =>
      if empty df then NoDataPage
      else DashboardPage
             {| key_metrics := metrics df;
                platform_table := by_platform df;
                platform_display := display_df df;
                time_series := over_time df daily;
                efficiency := eff df;
                caption := ("Data source: " ++ label ++ " Â· Marketing Analyst Assignment")%string |}
  end.

(** The connection parameters after the sidebar has been read. *)
Definition database_url (s : Session) : string :=
  match use_supabase s with
  | Supabase => if nonempty (cfg_database_url s) then cfg_database_url s
                else url_input s
  | BigQuery => cfg_database_url s
  end.

Definition project (s : Session) : string :=
  match use_supabase s with
  | BigQuery => if nonempty (cfg_project s) then cfg_project s
                else project_input s
  | Supabase => cfg_project s
  end.

Definition dataset (s : Session) : string :=
  match use_supabase s with
  | BigQuery => if nonempty (cfg_dataset s) then cfg_dataset s
                else dataset_input s
  | Supabase => cfg_dataset s
  end.

Definition main (b : Backend) (s : Session) : Page :=
  match use_supabase s with
  | Supabase =>
      if nonempty (database_url s) then
        match load_unified_from_postgres b (database_url s) with
        | Raised e => ErrorPage ("Could not connect to Supabase: " ++ e)%string
        | Returned df =>
            match load_daily_from_postgres b (database_url s) with
            | Raised e =>
                ErrorPage ("Could not connect to Supabase: " ++ e)%string
            | Returned daily => render "Supabase (unified_ads)" df daily
            end
        end
      else SetupPage Supabase
  | BigQuery =>
      if nonempty (project s) && nonempty (dataset s) then
        match load_unified_from_bigquery b (project s) (dataset s) with
        | Raised e => ErrorPage ("Could not load from BigQuery: " ++ e)%string
        | Returned df =>
            match load_daily_from_bigquery b (project s) (dataset s) with
            | Raised e =>
                ErrorPage ("Could not load from BigQuery: " ++ e)%string
            | Returned daily => render "BigQuery" df daily
            end
        end
      else SetupPage BigQuery
  end.

(* ------------------------------------------------------------------ *)
(** ** Vocabulary of the properties *)


(** The rows of the frame that belong to platform [p]. *)
Definition rows_of_platform (p : string) (df : DataFrame) : DataFrame :=
  filter (fun r => String.eqb p (platform r)) df.

(** The rows of the frame for date [d] and platform [p]. *)
Definition rows_of_day (d : Date) (p : string) (df : DataFrame) : DataFrame :=
  filter (fun r => (d =? date r) && String.eqb p (platform r)) df.

Definition day_key (a : DailyAlt) : Date * string := (a_date a, a_platform a).

(** The fallback output for a frame. *)
Definition fallback (df : DataFrame) : TimeSeries :=
  FromRaw (daily_alt df) (line_traces (daily_alt df)).

(** The daily query has been sent and has raised [e], while the unified query
    on the same connection returned [df]. *)
Definition daily_query_failed (b : Backend) (s : Session) (df : DataFrame)
  (e : string) : Prop :=
  match use_supabase s with
  | Supabase =>
      nonempty (database_url s) = true /\
      bad_url (database_url s) = false /\
      pg_unified_ads b (database_url s) = Returned df /\
      pg_unified_ads_daily_summary b (database_url s) = Raised e
  | BigQuery =>
      nonempty (project s) = true /\
      nonempty (dataset s) = true /\
      bq_unified_ads b (project s) (dataset s) = Returned df /\
      bq_unified_ads_daily_summary b (project s) (dataset s) = Raised e
  end.

(** The numbers of a column, when all of its values are finite. *)
Fixpoint finite_values (l : list f64) : option (list Q) :=
  match l with
  | [] => Some []
  | Fin q :: r => option_map (cons q) (finite_values r)
  | _ :: _ => None
  end.

(** The mean of the per-platform CTR values, for comparison with the overall
    CTR ([None] when one of them is not a finite number). *)
Definition mean_of_platform_ctr (df : DataFrame) : option Q :=
  match finite_values (map ctr_pct (by_platform df)) with
  | Some qs => Some (sumQ qs / inject_Z (Z.of_nat (List.length qs)))%Q
  | None => None
  end.

(* ------------------------------------------------------------------ *)
(** ** Sample record sets *)

Definition no_impressions : DataFrame :=
  [ mkRecord 1 "facebook" "c1" "Spring" "g1" "Shoes" 0 0 (10 # 1) 1 ].

Definition thirds : DataFrame :=
  [ mkRecord 1 "google" "c1" "Spring" "g1" "Shoes" 900 30 (10 # 1) 3 ].

Definition no_conversions : DataFrame :=
  [ mkRecord 1 "tiktok" "c1" "Spring" "g1" "Shoes" 500 0 (25 # 1) 0 ].

Definition uneven : DataFrame :=
  [ mkRecord 1 "facebook" "c1" "Spring" "g1" "Shoes" 1000 100 (50 # 1) 4;
    mkRecord 1 "google" "c2" "Spring" "g2" "Shoes" 9000 90 (70 # 1) 6 ].

Definition two_days : DataFrame :=
  [ mkRecord 2 "google" "c1" "Spring" "g1" "Shoes" 100 10 (5 # 1) 1;
    mkRecord 1 "google" "c1" "Spring" "g1" "Shoes" 200 20 (7 # 1) 2;
    mkRecord 1 "facebook" "c2" "Spring" "g2" "Shoes" 300 30 (9 # 1) 3;
    mkRecord 2 "google" "c3" "Summer" "g3" "Hats" 400 40 (11 # 1) 4 ].


Definition summary_missing : Backend :=
  {| pg_unified_ads := fun _ => Returned two_days;
     pg_unified_ads_daily_summary :=
       fun _ => Raised "relation unified_ads_daily_summary does not exist";
     bq_unified_ads := fun _ _ => Returned two_days;
     bq_unified_ads_daily_summary := fun _ _ => Raised "Not found: Table" |}.

Definition supabase_session : Session :=
  {| cfg_database_url := "postgresql://postgres:pw@db.example.org:5432/postgres";
     cfg_project := "";
     cfg_dataset := "";
     use_supabase := Supabase;
     url_input := "";
     project_input := "";
     dataset_input := "" |}.

(* ------------------------------------------------------------------ *)
(** ** Configuration lookups *)

(** The two places a setting can come from: the process environment
    ([os.environ]) and the secrets of the application ([st.secrets]).  The
    secrets are a table read from a file; without the file, reading any key
    raises. *)
Record Config : Type := mkConfig {
  environ : string -> option string;
  secrets : result (string -> option string)
}.

(** [st.secrets.get(k, "")] *)
Definition secret_or_empty (c : Config) (k : string) : result string :=
  match secrets c with
  | Raised e => Raised e
  | Returned table =>
      Returned (match table k with Some v => v | None => "" end)
  end.

(** [os.environ.get(k) or st.secrets.get(k, "")]: the secrets are consulted
    only when the environment has no value or an empty one. *)
Definition env_or_secret (c : Config) (k : string) : result string :=
  match environ c k with
  | Some v => if nonempty v then Returned v else secret_or_empty c k
  | None => secret_or_empty c k
  end.

Definition get_database_url (c : Config) : result string :=
  env_or_secret c "DATABASE_URL".

Definition get_bq_config (c : Config) : result (string * string) :=
  match env_or_secret c "BQ_PROJECT" with
  | Raised e => Raised e
  | Returned project =>
      match env_or_secret c "BQ_DATASET" with
      | Raised e => Raised e
      | Returned dataset => Returned (project, dataset)
      end
  end.

(** The first two statements of [main]: the session of a page run, or the
    exception of a lookup, which [main] does not catch. *)
Definition session_of (c : Config) (choice : Database)
  (url_in project_in dataset_in : string) : result Session :=
  match get_database_url c with
  | Raised e => Raised e
  | Returned url =>
      match get_bq_config c with
      | Raised e => Raised e
      | Returned (project, dataset) =>
          Returned {| cfg_database_url := url;
                      cfg_project := project;
                      cfg_dataset := dataset;
                      use_supabase := choice;
                      url_input := url_in;
                      project_input := project_in;
                      dataset_input := dataset_in |}
      end
  end.

(* ------------------------------------------------------------------ *)
(** ** Double precision

    The exact reading above is enough for what does not depend on rounding.
    What the program prints to the last digit depends on it: the columns are
    float64 and every operation rounds its result to the nearest double, ties
    to even.  A double is held as the rational it stands for.  Overflow and
    subnormal numbers are not modelled. *)

(** The exponent of a non-zero number: the [e] with [2^e <= |q| < 2^(e+1)]. *)
Definition exponent (q : Q) : Z :=
  let e := Z.log2 (Z.abs (Qnum q)) - Z.log2 (Zpos (Qden q)) in
  if Qle_bool (2 ^ e) (Qabs q) then e else e - 1.

(** The double nearest to [q]: 53 significant bits, ties to even. *)
Definition nearest_double (q : Q) : Q :=
  if Qeq_bool q 0 then 0%Q
  else let s := (2 ^ (52 - exponent q))%Q in
       Qred (inject_Z (rint (q * s)) / s).

Definition add64 (a b : Q) : Q := nearest_double (a + b).
Definition sub64 (a b : Q) : Q := nearest_double (a - b).

Definition to_double (x : f64) : f64 :=
  match x with
  | Fin q => Fin (nearest_double q)
  | other => other
  end.

Definition fdiv64 (a b : f64) : f64 := to_double (fdiv a b).
Definition fmul64 (a b : f64) : f64 := to_double (fmul a b).

(** numpy's [round(x, d)]: multiply by [10^d], [rint], divide by [10^d],
    each step a float operation. *)
Definition round64 (d : nat) (q : Q) : Q :=
  nearest_double
    (inject_Z (rint (nearest_double (q * inject_Z (pow10 d))))
     / inject_Z (pow10 d)).

Definition fround64 (d : nat) (x : f64) : f64 :=
  match x with
  | Fin q => Fin (round64 d q)
  | other => other
  end.

(** An integer column converted to float64 for a division. *)
Definition int_to_double (z : Z) : Q := nearest_double (inject_Z z).
Definition of_int64 (z : Z) : f64 := Fin (int_to_double z).

Definition replace_zero_nan64 (z : Z) : f64 :=
  if z =? 0 then NaN else of_int64 z.

(** *** [Series.sum] of a float column

    numpy adds the values of a column in this order: fewer than 8 values one
    after the other; up to 128 values in 8 interleaved running sums that are
    then added in pairs, the values left over last; more values by halves. *)
Definition lanes_add (r c : list Q) : list Q :=
  map (fun ab => add64 (fst ab) (snd ab)) (combine r c).

Fixpoint add_chunks (k : nat) (r l : list Q) : list Q * list Q :=
  match k with
  | O => (r, l)
  | S k' => add_chunks k' (lanes_add r (firstn 8 l)) (skipn 8 l)
  end.

Definition reduce_lanes (r : list Q) : Q :=
  match r with
  | [r0; r1; r2; r3; r4; r5; r6; r7] =>
      add64 (add64 (add64 r0 r1) (add64 r2 r3))
            (add64 (add64 r4 r5) (add64 r6 r7))
  | _ => 0%Q
  end.

Definition block_sum (l : list Q) : Q :=
  let rest := skipn 8 l in
  let (r, tail) := add_chunks (List.length rest / 8) (firstn 8 l) rest in
  fold_left add64 tail (reduce_lanes r).

Fixpoint pairwise_sum (fuel : nat) (l : list Q) : Q :=
  let n := List.length l in
  if (n <? 8)%nat then fold_left add64 l 0%Q
  else if (n <=? 128)%nat then block_sum l
  else match fuel with
       | O => block_sum l
       | S fuel' =>
           let n2 := (n / 2 - (n / 2) mod 8)%nat in
           add64 (pairwise_sum fuel' (firstn n2 l))
                 (pairwise_sum fuel' (skipn n2 l))
       end.

Definition np_sum (l : list Q) : Q := pairwise_sum (List.length l) l.

(** *** [groupby(...).sum] of a float column

    pandas adds the values of a group in row order with a running
    compensation (Kahan summation). *)
Definition kahan_step (st : Q * Q) (val : Q) : Q * Q :=
  let (sumx, compensation) := st in
  let y := sub64 val compensation in
  let t := add64 sumx y in
  (t, sub64 (sub64 t sumx) y).

Definition group_sum (l : list Q) : Q :=
  fst (fold_left kahan_step l (0%Q, 0%Q)).

(** *** The computations of [main] in double precision *)

(** The [spend] column as loaded: the decimal amounts become doubles. *)
Definition spend64 (r : UnifiedRecord) : Q := nearest_double (spend r).

Definition tot_spend64 (df : DataFrame) : Q := np_sum (map spend64 df).

Definition overall_cpc64 (df : DataFrame) : f64 :=
  if truthy (tot_clicks df)
  then fdiv64 (Fin (tot_spend64 df)) (of_int64 (tot_clicks df))
  else Fin 0.

Definition overall_cpa64 (df : DataFrame) : f64 :=
  if truthy (tot_conversions df)
  then fdiv64 (Fin (tot_spend64 df)) (of_int64 (tot_conversions df))
  else Fin 0.

Definition overall_ctr64 (df : DataFrame) : f64 :=
  if truthy (tot_impressions df)
  then fmul64 (fdiv64 (of_int64 (tot_clicks df))
                      (of_int64 (tot_impressions df)))
              (Fin 100)
  else Fin 0.

Definition metrics64 (df : DataFrame) : list (string * string) :=
  [ ("Total spend", "$" ++ format_f true 0 (Fin (tot_spend64 df)));
    ("Impressions", format_f true 0 (of_int (tot_impressions df)));
    ("Clicks", format_f true 0 (of_int (tot_clicks df)));
    ("Conversions", format_f true 0 (of_int (tot_conversions df)));
    ("CTR %", format_f false 2 (overall_ctr64 df) ++ "%");
    ("Cost per conversion", "$" ++ format_f true 2 (overall_cpa64 df)) ]%string.

Definition agg_platform64 (g : string * list UnifiedRecord) : PlatformSums :=
  {| s_platform := fst g;
     s_spend := group_sum (map spend64 (snd g));
     s_impressions := sumZ (map impressions (snd g));
     s_clicks := sumZ (map clicks (snd g));
     s_conversions := sumZ (map conversions (snd g)) |}.

Definition platform_sums64 (df : DataFrame) : list PlatformSums :=
  map agg_platform64 (groupby platform df).

Definition derive64 (spend_sum : Q) (s : PlatformSums) : PlatformSummary :=
  {| p_platform := s_platform s;
     p_spend := s_spend s;
     p_impressions := s_impressions s;
     p_clicks := s_clicks s;
     p_conversions := s_conversions s;
     ctr_pct :=
       fround64 2 (fmul64 (fdiv64 (of_int64 (s_clicks s))
                                  (of_int64 (s_impressions s)))
                          (Fin 100));
     cost_per_conv :=
       fround64 2 (fdiv64 (Fin (s_spend s))
                          (replace_zero_nan64 (s_conversions s)));
     share_of_spend :=
       fround64 1 (fmul64 (fdiv64 (Fin (s_spend s)) (Fin spend_sum))
                          (Fin 100)) |}.

Definition by_platform64 (df : DataFrame) : list PlatformSummary :=
  let sums := platform_sums64 df in
  map (derive64 (np_sum (map s_spend sums))) sums.

Definition display_df64 (df : DataFrame) : list DisplayRow :=
  map display_row (by_platform64 df).

(* ------------------------------------------------------------------ *)
(** ** More vocabulary *)

(** The sum of an integer column [f] over all groups, group by group. *)
Definition groups_sumZ {K R : Type} (f : R -> Z) (groups : list (K * list R)) : Z :=
  sumZ (map (fun g => sumZ (map f (snd g))) groups).

(** All rows of all groups, group after group. *)
Definition all_rows {K R : Type} (groups : list (K * list R)) : list R :=
  List.concat (map snd groups).

(** Platform names in increasing order. *)
Definition platform_lt (a b : string) : Prop := String.compare a b = Lt.

(** A row whose counters are in range: clicks between 0 and impressions. *)
Definition clicks_in_range (r : UnifiedRecord) : Prop :=
  0 <= clicks r <= impressions r.

Definition spend_nonneg (r : UnifiedRecord) : Prop := (0 <= spend r)%Q.

(** A finite value between [lo] and [hi]. *)
Definition finite_between (lo hi : Q) (v : f64) : Prop :=
  match v with
  | Fin q => (lo <= q <= hi)%Q
  | _ => False
  end.



(** The store that [main] reads, by the sidebar choice: what its unified
    query gives when the connection parameters let it run. *)
Definition unified_query (b : Backend) (s : Session) : option (result DataFrame) :=
  match use_supabase s with
  | Supabase =>
      if nonempty (database_url s) && negb (bad_url (database_url s))
      then Some (pg_unified_ads b (database_url s)) else None
  | BigQuery =>
      if nonempty (project s) && nonempty (dataset s)
      then Some (bq_unified_ads b (project s) (dataset s)) else None
  end.

(** The text ahead of the exception in the error box. *)
Definition error_prefix (db : Database) : string :=
  match db with
  | Supabase => "Could not connect to Supabase: "
  | BigQuery => "Could not load from BigQuery: "
  end.

(** Groups whose rows all carry the platform of the group key. *)
Definition groups_by_platform (G : list ((Date * string) * list UnifiedRecord))
  : Prop :=
  Forall (fun g => Forall (fun r => platform r = snd (fst g)) (snd g)) G.

Definition conversions_nonneg (r : UnifiedRecord) : Prop := 0 <= conversions r.

(* ------------------------------------------------------------------ *)
(** ** More sample inputs *)


Definition two_days_daily : DailyFrame :=
  [ mkDaily 1 "google" 200 20 (7 # 1) 2 (Fin 10) (Fin (35 # 10));
    mkDaily 1 "facebook" 300 30 (9 # 1) 3 (Fin 10) (Fin 3);
    mkDaily 2 "google" 500 50 (16 # 1) 5 (Fin 10) (Fin (32 # 10)) ].





(** A setting that a source does not give: the key is missing or empty. *)
Definition unset (source : string -> option string) (k : string) : Prop :=
  source k = None \/ source k = Some "".


Definition env_only : Config :=
  {| environ := fun k => if String.eqb k "DATABASE_URL"
                         then Some "postgresql://env" else None;
     secrets := Raised "No secrets found" |}.

Definition three_platforms : DataFrame :=
  map (fun p => mkRecord 1 p "c" "Spring" "g" "Shoes" 100 10 (20 # 1) 1)
      ["facebook"; "google"; "tiktok"].

(* ================================================================== *)
(** * Properties *)

(** ** Key orders *)

Lemma kcmp_refl {K : Type} `{GroupKeyOk K} (a : K) : kcmp a a = Eq.
Proof. now apply kcmp_eq. Qed.

Lemma kcmp_gt_lt {K : Type} `{GroupKeyOk K} (a b : K) :
  kcmp a b = Gt <-> kcmp b a = Lt.
Proof.
  rewrite (kcmp_antisym a b). destruct (kcmp b a); simpl; split; congruence.
Qed.

Lemma string_cmp_trans (a b c : string) :
  String.compare a b = Lt -> String.compare b c = Lt -> String.compare a c = Lt.
Proof.
  intros Hab Hbc.
  apply String_as_OT.cmp_lt in Hab; apply String_as_OT.cmp_lt in Hbc.
  apply String_as_OT.cmp_lt. exact (String_as_OT.lt_trans _ _ _ Hab Hbc).
Qed.

#[export] Instance string_key_ok : GroupKeyOk string.
Proof.
  split.
  - exact String_as_OT.cmp_eq.
  - exact String_as_OT.cmp_antisym.
  - exact string_cmp_trans.
Qed.

Lemma Z_cmp_antisym (a b : Z) : (a ?= b)%Z = CompOpp (b ?= a)%Z.
Proof. apply Z.compare_antisym. Qed.

Lemma Z_cmp_trans (a b c : Z) :
  (a ?= b)%Z = Lt -> (b ?= c)%Z = Lt -> (a ?= c)%Z = Lt.
Proof. rewrite !Z.compare_lt_iff. lia. Qed.

#[export] Instance date_key_ok : GroupKeyOk Date.
Proof.
  split.
  - exact Z.compare_eq_iff.
  - exact Z_cmp_antisym.
  - exact Z_cmp_trans.
Qed.

Section LexOrder.
Context {A B : Type} `{GroupKeyOk A} `{GroupKeyOk B}.

Lemma lex_cmp_eq (x y : A * B) : lex_cmp x y = Eq <-> x = y.
Proof.
  destruct x as [a b], y as [a' b']; unfold lex_cmp; simpl. split.
  - destruct (kcmp a a') eqn:E; try discriminate.
    intros E'. apply kcmp_eq in E, E'. now subst.
  - intros [= -> ->]. now rewrite !kcmp_refl.
Qed.

Lemma lex_cmp_antisym (x y : A * B) : lex_cmp x y = CompOpp (lex_cmp y x).
Proof.
  destruct x as [a b], y as [a' b']; unfold lex_cmp; simpl.
  rewrite (kcmp_antisym a a'). destruct (kcmp a' a); simpl; auto.
  apply kcmp_antisym.
Qed.

Lemma lex_cmp_trans (x y z : A * B) :
  lex_cmp x y = Lt -> lex_cmp y z = Lt -> lex_cmp x z = Lt.
Proof.
  destruct x as [a b], y as [a' b'], z as [a'' b'']; unfold lex_cmp; simpl.
  destruct (kcmp a a') eqn:E1; try discriminate;
    destruct (kcmp a' a'') eqn:E2; try discriminate; intros L1 L2.
  - apply kcmp_eq in E1, E2; subst. rewrite kcmp_refl.
    exact (kcmp_trans _ _ _ L1 L2).
  - apply kcmp_eq in E1; subst. now rewrite E2.
  - apply kcmp_eq in E2; subst. now rewrite E1.
  - now rewrite (kcmp_trans _ _ _ E1 E2).
Qed.

#[export] Instance pair_key_ok : GroupKeyOk (A * B).
Proof.
  split.
  - exact lex_cmp_eq.
  - exact lex_cmp_antisym.
  - exact lex_cmp_trans.
Qed.
End LexOrder.

(** ** [groupby] *)

Section GroupByFacts.
Context {K R : Type} `{GroupKeyOk K}.
Variable key : R -> K.

Lemma keqb_eq (a b : K) : keqb a b = true <-> a = b.
Proof.
  unfold keqb. rewrite <- kcmp_eq. destruct (kcmp a b); split; congruence.
Qed.

Lemma keqb_refl (a : K) : keqb a a = true.
Proof. now apply keqb_eq. Qed.

Lemma klt_irrefl (a : K) : ~ klt a a.
Proof. unfold klt. rewrite kcmp_refl. discriminate. Qed.

Lemma keys_add_to_group (k : K) (r : R) (groups : list (K * list R)) (x : K) :
  In x (keys (add_to_group k r groups)) <-> x = k \/ In x (keys groups).
Proof.
  induction groups as [|[k' rows] rest IH]; simpl.
  - intuition.
  - destruct (kcmp k k') eqn:E; simpl.
    + apply kcmp_eq in E; subst. intuition.
    + intuition.
    + rewrite IH. intuition.
Qed.

Lemma add_to_group_sorted (k : K) (r : R) (groups : list (K * list R)) :
  StronglySorted klt (keys groups) ->
  StronglySorted klt (keys (add_to_group k r groups)).
Proof.
  induction groups as [|[k' rows] rest IH]; simpl; intros S.
  - repeat constructor.
  - inversion S as [|? ? S' F]; subst.
    destruct (kcmp k k') eqn:E; simpl.
    + constructor; assumption.
    + constructor; [exact S|]. constructor; [exact E|].
      eapply Forall_impl; [|exact F]. intros y Hy.
      exact (kcmp_trans _ _ _ E Hy).
    + constructor; [now apply IH|].
      apply Forall_forall. intros x Hx.
      apply keys_add_to_group in Hx. destruct Hx as [->|Hx].
      * now apply kcmp_gt_lt.
      * rewrite Forall_forall in F. now apply F.
Qed.

Lemma groupby_acc_sorted (df : list R) (acc : list (K * list R)) :
  StronglySorted klt (keys acc) ->
  StronglySorted klt
    (keys (fold_left (fun g r => add_to_group (key r) r g) df acc)).
Proof.
  revert acc. induction df as [|r df IH]; simpl; intros acc S; [exact S|].
  apply IH. now apply add_to_group_sorted.
Qed.

Lemma groupby_sorted (df : list R) :
  StronglySorted klt (keys (groupby key df)).
Proof. apply groupby_acc_sorted. constructor. Qed.

Lemma group_rows_absent (k : K) (groups : list (K * list R)) :
  ~ In k (keys groups) -> group_rows k groups = [].
Proof.
  induction groups as [|[k' rows] rest IH]; simpl; intros N; [reflexivity|].
  destruct (keqb k k') eqn:E.
  - apply keqb_eq in E. subst. tauto.
  - apply IH. tauto.
Qed.

Lemma sorted_head_absent (k : K) (ks : list K) :
  Forall (klt k) ks -> ~ In k ks.
Proof.
  intros F I. rewrite Forall_forall in F. exact (klt_irrefl k (F k I)).
Qed.

Lemma group_rows_add (k x : K) (r : R) (groups : list (K * list R)) :
  StronglySorted klt (keys groups) ->
  group_rows x (add_to_group k r groups) =
  if keqb x k then group_rows x groups ++ [r] else group_rows x groups.
Proof.
  induction groups as [|[k' rows] rest IH]; simpl; intros S.
  - destruct (keqb x k); reflexivity.
  - inversion S as [|? ? S' F]; subst.
    destruct (kcmp k k') eqn:E; simpl.
    + apply kcmp_eq in E; subst k'.
      destruct (keqb x k); reflexivity.
    + destruct (keqb x k) eqn:Exk; [|reflexivity].
      apply keqb_eq in Exk; subst x.
      unfold keqb at 1. rewrite E.
      rewrite group_rows_absent; [reflexivity|].
      apply sorted_head_absent. eapply Forall_impl; [|exact F].
      intros y Hy. exact (kcmp_trans _ _ _ E Hy).
    + destruct (keqb x k') eqn:Exk'.
      * apply keqb_eq in Exk'; subst x.
        unfold keqb. rewrite (kcmp_antisym k' k), E. reflexivity.
      * now apply IH.
Qed.

Lemma groupby_acc_rows (x : K) (df : list R) (acc : list (K * list R)) :
  StronglySorted klt (keys acc) ->
  group_rows x (fold_left (fun g r => add_to_group (key r) r g) df acc) =
  group_rows x acc ++ filter (fun r => keqb x (key r)) df.
Proof.
  revert acc. induction df as [|r df IH]; simpl; intros acc S.
  - now rewrite app_nil_r.
  - rewrite IH by now apply add_to_group_sorted.
    rewrite group_rows_add by assumption.
    destruct (keqb x (key r)); [now rewrite <- app_assoc|reflexivity].
Qed.

(** The group of a key holds exactly the rows with that key, in order. *)
Lemma groupby_rows (x : K) (df : list R) :
  group_rows x (groupby key df) = filter (fun r => keqb x (key r)) df.
Proof. unfold groupby. rewrite groupby_acc_rows; [reflexivity|constructor]. Qed.

Lemma group_rows_In (k : K) (rows : list R) (groups : list (K * list R)) :
  StronglySorted klt (keys groups) ->
  In (k, rows) groups -> group_rows k groups = rows.
Proof.
  induction groups as [|[k' rows'] rest IH]; simpl; intros S I; [tauto|].
  inversion S as [|? ? S' F]; subst.
  destruct I as [E|I].
  - inversion E; subst. now rewrite keqb_refl.
  - destruct (keqb k k') eqn:Ek.
    + apply keqb_eq in Ek; subst k'. exfalso.
      apply (sorted_head_absent k (keys rest) F).
      unfold keys. apply in_map_iff. now exists (k, rows).
    + now apply IH.
Qed.

(** Every group of the result is the filter of the frame by its key. *)
Lemma groupby_In (k : K) (rows : list R) (df : list R) :
  In (k, rows) (groupby key df) ->
  rows = filter (fun r => keqb k (key r)) df.
Proof.
  intros I. rewrite <- groupby_rows. symmetry.
  apply group_rows_In; [apply groupby_sorted|exact I].
Qed.

Lemma groupby_acc_keys (x : K) (df : list R) (acc : list (K * list R)) :
  In x (keys (fold_left (fun g r => add_to_group (key r) r g) df acc)) <->
  In x (keys acc) \/ In x (map key df).
Proof.
  revert acc. induction df as [|r df IH]; simpl; intros acc.
  - tauto.
  - rewrite IH, keys_add_to_group. intuition.
Qed.

(** The keys of the result are the keys that occur in the frame. *)
Lemma groupby_keys (x : K) (df : list R) :
  In x (keys (groupby key df)) <-> In x (map key df).
Proof. unfold groupby. rewrite groupby_acc_keys. simpl. tauto. Qed.

Lemma sorted_NoDup (ks : list K) : StronglySorted klt ks -> NoDup ks.
Proof.
  induction 1 as [|k ks S IH F]; constructor; auto.
  now apply sorted_head_absent.
Qed.

Lemma groupby_NoDup (df : list R) : NoDup (keys (groupby key df)).
Proof. apply sorted_NoDup, groupby_sorted. Qed.

Lemma groupby_nonempty (r : R) (df : list R) : groupby key (r :: df) <> [].
Proof.
  intros E. assert (I : In (key r) (keys (groupby key (r :: df)))).
  { apply groupby_keys. now left. }
  rewrite E in I. exact I.
Qed.

(** *** Column sums are preserved by the grouping *)

Section SumQ.
Variable f : R -> Q.

Lemma sumQ_snoc (l : list Q) (x : Q) : (sumQ (l ++ [x]) == sumQ l + x)%Q.
Proof. induction l as [|y l IH]; simpl; [ring|rewrite IH; ring]. Qed.

Lemma groups_sumQ_add (k : K) (r : R) (groups : list (K * list R)) :
  (groups_sumQ f (add_to_group k r groups) == groups_sumQ f groups + f r)%Q.
Proof.
  unfold groups_sumQ.
  induction groups as [|[k' rows] rest IH]; simpl.
  - ring.
  - destruct (kcmp k k'); simpl.
    + rewrite map_app; simpl. rewrite sumQ_snoc. ring.
    + ring.
    + rewrite IH. ring.
Qed.

Lemma groupby_acc_sumQ (df : list R) (acc : list (K * list R)) :
  (groups_sumQ f (fold_left (fun g r => add_to_group (key r) r g) df acc)
   == groups_sumQ f acc + sumQ (map f df))%Q.
Proof.
  revert acc. induction df as [|r df IH]; simpl; intros acc.
  - ring.
  - rewrite IH, groups_sumQ_add. ring.
Qed.

Lemma groupby_sumQ (df : list R) :
  (groups_sumQ f (groupby key df) == sumQ (map f df))%Q.
Proof. unfold groupby. rewrite groupby_acc_sumQ. unfold groups_sumQ; simpl. ring. Qed.
End SumQ.
End GroupByFacts.

(** ** Rounding *)


Lemma pow10_pos (d : nat) : 0 < pow10 d.
Proof. unfold pow10. apply Z.pow_pos_nonneg; lia. Qed.

Lemma pow10_Qpos (d : nat) : (0 < inject_Z (pow10 d))%Q.
Proof. rewrite <- (Zlt_Qlt 0). apply pow10_pos. Qed.







(** ** The per-platform table *)

Lemma string_keqb (a b : string) : keqb a b = String.eqb a b.
Proof.
  apply eq_true_iff_eq. rewrite keqb_eq, String.eqb_eq. reflexivity.
Qed.

Lemma platform_sums_In (s : PlatformSums) (df : DataFrame) :
  In s (platform_sums df) ->
  s = agg_platform (s_platform s, rows_of_platform (s_platform s) df).
Proof.
  unfold platform_sums. intros I. apply in_map_iff in I.
  destruct I as [[k rows] [<- I]]. simpl.
  apply groupby_In in I. subst rows. unfold rows_of_platform.
  f_equal. f_equal. apply filter_ext. intros r. apply string_keqb.
Qed.

Lemma by_platform_In (p : PlatformSummary) (df : DataFrame) :
  In p (by_platform df) ->
  exists s, In s (platform_sums df) /\
            p = derive (sumQ (map s_spend (platform_sums df))) s.
Proof.
  unfold by_platform. cbv zeta. intros I. apply in_map_iff in I.
  destruct I as [s [<- I]]. now exists s.
Qed.

Lemma platform_sums_spend (df : DataFrame) :
  (sumQ (map s_spend (platform_sums df)) == tot_spend df)%Q.
Proof.
  unfold platform_sums, tot_spend. rewrite map_map.
  exact (groupby_sumQ platform spend df).
Qed.

(** *** [ctr_pct] on a platform without impressions *)

(** What the unguarded division gives for a group without impressions. *)
Lemma ctr_pct_zero_impressions (df : DataFrame) (p : PlatformSummary) :
  In p (by_platform df) -> p_impressions p = 0 ->
  ctr_pct p = match p_clicks p ?= 0 with
              | Eq => NaN
              | Gt => PInf
              | Lt => NInf
              end.
Proof.
  intros I Z. apply by_platform_In in I. destruct I as [s [_ ->]].
  simpl in *. rewrite Z. unfold of_int, fdiv, Qsign.
  change (Qcompare (inject_Z 0) 0) with (@Eq).
  replace (Qcompare (inject_Z (s_clicks s)) 0) with (s_clicks s ?= 0).
  - destruct (s_clicks s ?= 0); reflexivity.
  - unfold Qcompare, inject_Z; simpl. now rewrite Z.mul_1_r.
Qed.

(** C1.  On a record set whose only platform has no impressions, the
    platform row has [ctr_pct = nan] (shown as ["nan%"]), not [0]. *)
Theorem ctr_pct_no_impressions_is_nan :
  map p_impressions (by_platform no_impressions) = [0] /\
  map ctr_pct (by_platform no_impressions) = [NaN] /\
  map v_ctr_pct (display_df no_impressions) = ["nan%"].
Proof. repeat split. Qed.

(** *** [cost_per_conv] *)

Lemma replace_zero_nan_nonzero (z : Z) :
  z <> 0 -> replace_zero_nan z = of_int z /\ Qsign (inject_Z z) <> Eq.
Proof.
  intros N. unfold replace_zero_nan.
  destruct (Z.eqb_spec z 0) as [E|_]; [contradiction|]. split; [reflexivity|].
  unfold Qsign. intros E. apply Qeq_alt in E.
  apply N. unfold Qeq in E; simpl in E. lia.
Qed.

Lemma fdiv_finite (x y : Q) :
  Qsign y <> Eq -> fdiv (Fin x) (Fin y) = Fin (x / y).
Proof. intros N. unfold fdiv. destruct (Qsign y); congruence. Qed.

(** ** Overall KPIs *)

Lemma truthy_zero (z : Z) : z = 0 -> truthy z = false.
Proof. intros ->. reflexivity. Qed.

Lemma truthy_nonzero (z : Z) :
  z <> 0 -> truthy z = true /\ Qsign (inject_Z z) <> Eq.
Proof.
  intros N. split.
  - unfold truthy. now destruct (Z.eqb_spec z 0).
  - apply replace_zero_nan_nonzero, N.
Qed.

(** C3, as stated, fails: with no conversions and no clicks at all the overall
    cost per conversion and cost per click are the number 0, and the tile
    shows ["$0.00"]; the per-platform column holds [nan] on the same data. *)
Lemma overall_cost_ratios_are_zero_not_absent :
  tot_conversions no_conversions = 0 /\
  tot_clicks no_conversions = 0 /\
  overall_cpa no_conversions = Fin 0 /\
  overall_cpa no_conversions <> NaN /\
  overall_cpc no_conversions = Fin 0 /\
  In ("Cost per conversion", "$0.00") (metrics no_conversions) /\
  map cost_per_conv (by_platform no_conversions) = [NaN].
Proof.
  repeat split; try discriminate.
  do 5 right. left. reflexivity.
Qed.

(** C3 (amended).  The overall ratios guard a zero denominator by the number
    0: the overall cost per conversion is 0 (tile ["$0.00"]) when there are no
    conversions and spend/conversions otherwise; the overall cost per click is
    0 when there are no clicks and spend/clicks otherwise; the overall CTR is
    0 when there are no impressions. *)
Theorem overall_zero_guards (df : DataFrame) :
  (tot_conversions df = 0 ->
     overall_cpa df = Fin 0 /\
     In ("Cost per conversion", "$0.00") (metrics df)) /\
  (tot_conversions df <> 0 ->
     overall_cpa df = Fin (tot_spend df / inject_Z (tot_conversions df))) /\
  (tot_clicks df = 0 -> overall_cpc df = Fin 0) /\
  (tot_clicks df <> 0 ->
     overall_cpc df = Fin (tot_spend df / inject_Z (tot_clicks df))) /\
  (tot_impressions df = 0 -> overall_ctr df = Fin 0).
Proof.
  assert (A : tot_conversions df = 0 -> overall_cpa df = Fin 0).
  { intros Z. unfold overall_cpa. now rewrite truthy_zero. }
  split; [|split; [|split; [|split]]]; intros Hz.
  - split; [now apply A|].
    unfold metrics. rewrite (A Hz). do 5 right. left. reflexivity.
  - unfold overall_cpa. destruct (truthy_nonzero _ Hz) as [-> N].
    now apply fdiv_finite.
  - unfold overall_cpc. now rewrite truthy_zero.
  - unfold overall_cpc. destruct (truthy_nonzero _ Hz) as [-> N].
    now apply fdiv_finite.
  - unfold overall_ctr. now rewrite truthy_zero.
Qed.

Lemma overall_zero_guards_witness :
  overall_cpa no_conversions = Fin 0 /\
  overall_cpc no_conversions = Fin 0 /\
  overall_cpa thirds = Fin (tot_spend thirds / inject_Z (tot_conversions thirds)) /\
  overall_cpc thirds = Fin (tot_spend thirds / inject_Z (tot_clicks thirds)) /\
  overall_ctr [] = Fin 0.
Proof.
  destruct (overall_zero_guards no_conversions) as [A [_ [B _]]].
  destruct (overall_zero_guards thirds) as [_ [C [_ [D _]]]].
  destruct (overall_zero_guards []) as [_ [_ [_ [_ E]]]].
  split; [exact (proj1 (A eq_refl))|].
  split; [exact (B eq_refl)|].
  split; [apply C; discriminate|].
  split; [apply D; discriminate|].
  exact (E eq_refl).
Defined.

(** C5.  With positive total impressions the overall CTR is total clicks
    divided by total impressions, times 100: the formula applied to the grand
    totals.  It is not the mean of the per-platform CTRs: on [uneven] the
    overall CTR is 1.9 while the per-platform values 10 and 1 average 5.5. *)
Theorem overall_ctr_sum_then_divide (df : DataFrame) :
  0 < tot_impressions df ->
  overall_ctr df =
    Fin (inject_Z (tot_clicks df) / inject_Z (tot_impressions df) * 100) /\
  exists q m,
    overall_ctr uneven = Fin q /\ (q == 19 # 10)%Q /\
    mean_of_platform_ctr uneven = Some m /\ (m == 55 # 10)%Q /\
    ~ (q == m)%Q.
Proof.
  intros P. split.
  - unfold overall_ctr.
    destruct (truthy_nonzero (tot_impressions df)) as [-> N]; [lia|].
    unfold of_int. now rewrite fdiv_finite.
  - do 2 eexists. repeat split; try reflexivity. discriminate.
Qed.

Lemma overall_ctr_sum_then_divide_witness :
  0 < tot_impressions uneven /\
  overall_ctr uneven =
    Fin (inject_Z (tot_clicks uneven) / inject_Z (tot_impressions uneven) * 100).
Proof.
  split; [reflexivity|].
  apply (overall_ctr_sum_then_divide uneven). reflexivity.
Defined.

(** ** The time series *)

Lemma pair_keqb (d d' : Date) (p p' : string) :
  keqb (d, p) (d', p') = (d =? d') && String.eqb p p'.
Proof.
  apply eq_true_iff_eq.
  rewrite keqb_eq, andb_true_iff, Z.eqb_eq, String.eqb_eq.
  split; [intros [= -> ->]; auto|intros [-> ->]; reflexivity].
Qed.

Lemma daily_alt_keys (df : DataFrame) :
  map day_key (daily_alt df) = keys (groupby (fun r => (date r, platform r)) df).
Proof.
  unfold daily_alt, keys. rewrite map_map. apply map_ext.
  intros [[d p] rows]. reflexivity.
Qed.

Lemma daily_alt_In (a : DailyAlt) (df : DataFrame) :
  In a (daily_alt df) ->
  a_spend a = sumQ (map spend (rows_of_day (a_date a) (a_platform a) df)) /\
  a_conversions a =
    sumZ (map conversions (rows_of_day (a_date a) (a_platform a) df)).
Proof.
  unfold daily_alt. intros I. apply in_map_iff in I.
  destruct I as [[[d p] rows] [<- I]]. simpl.
  apply groupby_In in I.
  assert (E : rows = rows_of_day d p df).
  { subst rows. apply filter_ext. intros r. apply pair_keqb. }
  now rewrite E.
Qed.

(** In a list of (date, platform) keys in increasing order, the dates of one
    platform are increasing. *)
Lemma dates_of_platform_sorted (p : string) (ks : list (Date * string)) :
  StronglySorted klt ks ->
  StronglySorted Z.lt
    (map fst (filter (fun k => String.eqb (snd k) p) ks)).
Proof.
  induction 1 as [|[d q] ks S IH F]; simpl; [constructor|].
  destruct (String.eqb_spec q p) as [->|_]; [|exact IH].
  simpl. constructor; [exact IH|].
  apply Forall_forall. intros d' I. apply in_map_iff in I.
  destruct I as [[d'' q'] [<- I]]. apply filter_In in I.
  destruct I as [I E]. simpl in E. apply String.eqb_eq in E. subst q'.
  rewrite Forall_forall in F. specialize (F _ I).
  change (lex_cmp (d, p) (d'', p) = Lt) in F.
  unfold lex_cmp in F. cbn [fst snd] in F.
  destruct (kcmp d d'') eqn:C.
  - rewrite kcmp_refl in F. discriminate.
  - apply Z.compare_lt_iff. exact C.
  - discriminate.
Qed.

Lemma daily_alt_dates (p : string) (rows : list DailyAlt) :
  map a_date (filter (fun a => String.eqb (a_platform a) p) rows) =
  map fst (filter (fun k => String.eqb (snd k) p) (map day_key rows)).
Proof.
  induction rows as [|a rows IH]; simpl; [reflexivity|].
  destruct (String.eqb (a_platform a) p); simpl; now rewrite IH.
Qed.

Lemma line_traces_In (t : Trace) (rows : list DailyAlt) :
  In t (line_traces rows) ->
  xs t = map a_date (filter (fun a => String.eqb (a_platform a) (name t)) rows).
Proof.
  unfold line_traces. intros I. apply in_map_iff in I.
  destruct I as [p [<- _]]. reflexivity.
Qed.

(** C6.  In fallback mode the time series is [daily_alt]: its rows carry
    pairwise distinct (date, platform) pairs, exactly the pairs present in the
    raw record set; the spend and conversions of a row are the sums over the
    raw rows of that date and platform; for each platform the dates appear in
    ascending order, in the table and on the plotted line. *)
Theorem fallback_time_series (df : DataFrame) :
  over_time df None = FromRaw (daily_alt df) (line_traces (daily_alt df)) /\
  NoDup (map day_key (daily_alt df)) /\
  (forall d p, In (d, p) (map day_key (daily_alt df)) <->
               In (d, p) (map (fun r => (date r, platform r)) df)) /\
  (forall a, In a (daily_alt df) ->
     a_spend a = sumQ (map spend (rows_of_day (a_date a) (a_platform a) df)) /\
     a_conversions a =
       sumZ (map conversions (rows_of_day (a_date a) (a_platform a) df))) /\
  (forall p, StronglySorted Z.lt
     (map a_date (filter (fun a => String.eqb (a_platform a) p) (daily_alt df)))) /\
  (forall t, In t (line_traces (daily_alt df)) -> StronglySorted Z.lt (xs t)).
Proof.
  assert (S : forall p, StronglySorted Z.lt
     (map a_date (filter (fun a => String.eqb (a_platform a) p) (daily_alt df)))).
  { intros p. rewrite daily_alt_dates, daily_alt_keys.
    apply dates_of_platform_sorted, groupby_sorted. }
  split; [reflexivity|]. split; [|split; [|split; [|split]]].
  - rewrite daily_alt_keys. apply groupby_NoDup.
  - intros d p. rewrite daily_alt_keys. apply groupby_keys.
  - intros a. apply daily_alt_In.
  - exact S.
  - intros t I. rewrite (line_traces_In _ _ I). apply S.
Qed.

Lemma fallback_time_series_witness :
  exists a, In a (daily_alt two_days) /\
    day_key a = (2, "google") /\
    a_spend a = sumQ (map spend (rows_of_day 2 "google" two_days)) /\
    a_conversions a = 5.
Proof.
  exists (mkAlt 2 "google" ((5 # 1) + ((11 # 1) + 0)) 5).
  assert (I : In (mkAlt 2 "google" ((5 # 1) + ((11 # 1) + 0)) 5)
                 (daily_alt two_days)).
  { do 2 right. left. reflexivity. }
  split; [exact I|]. split; [reflexivity|].
  destruct (fallback_time_series two_days) as [_ [_ [_ [A _]]]].
  destruct (A _ I) as [Hs Hc]. split; [exact Hs|exact Hc].
Defined.

Lemma unique_In (p : string) (l : list string) : In p (unique l) -> In p l.
Proof.
  induction l as [|x l IH]; simpl; [tauto|].
  intros [E|I]; [now left|]. apply filter_In in I. right. apply IH, I.
Qed.

Lemma daily_alt_nonempty (df : DataFrame) : df <> [] -> daily_alt df <> [].
Proof.
  destruct df as [|r df]; [congruence|]. intros _. unfold daily_alt.
  intros E. apply map_eq_nil in E. revert E. apply groupby_nonempty.
Qed.

Lemma line_traces_points (rows : list DailyAlt) (t : Trace) :
  In t (line_traces rows) -> xs t <> [].
Proof.
  unfold line_traces. intros I. apply in_map_iff in I.
  destruct I as [p [<- I]]. simpl.
  apply unique_In, in_map_iff in I. destruct I as [a [<- I]].
  intros E. apply map_eq_nil in E.
  assert (J : In a (filter (fun r => String.eqb (a_platform r) (a_platform a)) rows)).
  { apply filter_In. split; [exact I|apply String.eqb_refl]. }
  rewrite E in J. exact J.
Qed.

Lemma line_traces_nonempty (rows : list DailyAlt) :
  rows <> [] -> line_traces rows <> [].
Proof. destruct rows; [congruence|]. discriminate. Qed.

(** C10.  The time series is the fallback output exactly when the daily
    dataset is absent or has no rows, so an empty daily table gives the same
    page as an absent one; with raw data present the fallback chart is not
    empty: it has a line, and every line has a point. *)
Theorem empty_daily_is_fallback (df : DataFrame) (daily : option DailyFrame) :
  (daily = None \/ daily = Some [] <-> over_time df daily = fallback df) /\
  (forall label, render label (Some df) (Some []) = render label (Some df) None) /\
  (df <> [] ->
     daily_alt df <> [] /\ line_traces (daily_alt df) <> [] /\
     forall t, In t (line_traces (daily_alt df)) -> xs t <> []).
Proof.
  split; [|split].
  - split.
    + intros [-> | ->]; reflexivity.
    + destruct daily as [[|r d]|]; simpl; auto. discriminate.
  - intros label. unfold render. destruct (empty df); reflexivity.
  - intros N. split; [now apply daily_alt_nonempty|].
    split; [now apply line_traces_nonempty, daily_alt_nonempty|].
    intros t. apply line_traces_points.
Qed.

Lemma empty_daily_is_fallback_witness :
  over_time two_days (Some []) = fallback two_days /\
  daily_alt two_days <> [].
Proof.
  destruct (empty_daily_is_fallback two_days (Some [])) as [A [_ B]].
  split.
  - apply A. right. reflexivity.
  - apply B. discriminate.
Defined.

(** *** A failing daily query *)

Lemma render_fallback (label : string) (df : DataFrame) :
  df <> [] ->
  exists d, render label (Some df) None = DashboardPage d /\
            time_series d = fallback df /\
            platform_table d = by_platform df.
Proof.
  intros N. unfold render. destruct df as [|r df]; [congruence|].
  simpl. eexists. split; [reflexivity|]. split; reflexivity.
Qed.

(** C7.  When the daily-summary query raises, on either store, [main] still
    returns the dashboard: no error page is produced and the time series is
    the fallback aggregation of the raw records. *)
Theorem daily_failure_falls_back (b : Backend) (s : Session) (df : DataFrame)
  (e : string) :
  df <> [] ->
  daily_query_failed b s df e ->
  (exists d, main b s = DashboardPage d /\ time_series d = fallback df) /\
  (forall msg, main b s <> ErrorPage msg).
Proof.
  intros N F.
  assert (D : exists d, main b s = DashboardPage d /\ time_series d = fallback df).
  { unfold daily_query_failed in F. unfold main.
    destruct (use_supabase s).
    - destruct F as (U & G & Q & Qd). rewrite U.
      unfold load_unified_from_postgres, load_daily_from_postgres.
      rewrite G, Q, Qd.
      destruct (render_fallback "Supabase (unified_ads)" df N) as [d [R [T _]]].
      now exists d.
    - destruct F as (P & S & Q & Qd). rewrite P, S. simpl.
      unfold load_unified_from_bigquery, load_daily_from_bigquery.
      rewrite P, S, Q, Qd. simpl.
      destruct (render_fallback "BigQuery" df N) as [d [R [T _]]].
      now exists d. }
  split; [exact D|].
  destruct D as [d [E _]]. intros msg. rewrite E. discriminate.
Qed.

Lemma daily_failure_falls_back_witness :
  exists d, main summary_missing supabase_session = DashboardPage d /\
            time_series d = fallback two_days.
Proof.
  refine (proj1 (daily_failure_falls_back summary_missing supabase_session
                   two_days "relation unified_ads_daily_summary does not exist"
                   _ _)).
  - discriminate.
  - repeat split.
Defined.

(** ** Share of spend *)








(** Why an allowance is left: in double precision the shares of three
    platforms with equal spend are three times the double nearest to 33.3,
    and their sum is 0.10000000000000853 away from 100. *)
Lemma three_equal_shares_in_double_precision :
  let share := nearest_double (333 # 10) in
  map share_of_spend (by_platform64 three_platforms)
    = [Fin share; Fin share; Fin share] /\
  ~ (Qabs (sumQ [share; share; share] - 100) <= 1 # 10)%Q /\
  ~ (Qabs (np_sum [share; share; share] - 100) <= 1 # 10)%Q /\
  (Qabs (sumQ [share; share; share] - 100) < (1 # 10) + (1 # 1000))%Q.
Proof.
  split; [vm_compute; reflexivity|].
  split; [vm_compute; intros H; apply H; reflexivity|].
  split; [vm_compute; intros H; apply H; reflexivity|].
  vm_compute. reflexivity.
Qed.

(* ================================================================== *)
(** * Further properties of the aggregation code *)

(** ** Grouping keeps every row *)

Lemma add_to_group_rows {K R : Type} `{GroupKey K} (k : K) (r : R)
  (groups : list (K * list R)) :
  Permutation (all_rows (add_to_group k r groups)) (r :: all_rows groups).
Proof.
  unfold all_rows. induction groups as [|[k' rows] rest IH]; simpl.
  - reflexivity.
  - destruct (kcmp k k'); simpl.
    + rewrite <- app_assoc. simpl. symmetry. apply Permutation_middle.
    + reflexivity.
    + rewrite IH. symmetry. apply Permutation_middle.
Qed.

Lemma groupby_acc_all_rows {K R : Type} `{GroupKey K} (key : R -> K)
  (df : list R) (acc : list (K * list R)) :
  Permutation
    (all_rows (fold_left (fun g r => add_to_group (key r) r g) df acc))
    (all_rows acc ++ df).
Proof.
  revert acc. induction df as [|r df IH]; simpl; intros acc.
  - now rewrite app_nil_r.
  - rewrite IH, add_to_group_rows. simpl. apply Permutation_middle.
Qed.

Lemma groupby_all_rows {K R : Type} `{GroupKey K} (key : R -> K) (df : list R) :
  Permutation (all_rows (groupby key df)) df.
Proof. unfold groupby. now rewrite groupby_acc_all_rows. Qed.

Lemma groupby_group_nonempty {K R : Type} `{GroupKeyOk K} (key : R -> K)
  (df : list R) (k : K) (rows : list R) :
  In (k, rows) (groupby key df) -> rows <> [].
Proof.
  intros I E. subst rows.
  assert (J : In k (keys (groupby key df))).
  { unfold keys. apply in_map_iff. now exists (k, []). }
  apply (groupby_keys key) in J. apply in_map_iff in J.
  destruct J as [r [Kr Ir]].
  apply groupby_In in I.
  assert (F : In r (filter (fun r => keqb k (key r)) df)).
  { apply filter_In. split; [exact Ir|]. apply keqb_eq. now symmetry. }
  rewrite <- I in F. exact F.
Qed.

(** Both groupings of [main] split the frame: their groups together hold
    the rows of the frame, each once; no group is empty; the group of a key
    holds the rows with that key in their order in the frame. *)
Theorem groupings_split_the_frame (df : DataFrame) :
  Permutation (all_rows (groupby platform df)) df /\
  Permutation (all_rows (groupby (fun r => (date r, platform r)) df)) df /\
  Forall (fun g => snd g <> [] /\ snd g = rows_of_platform (fst g) df)
         (groupby platform df) /\
  Forall (fun g => snd g <> [] /\
                   snd g = rows_of_day (fst (fst g)) (snd (fst g)) df)
         (groupby (fun r => (date r, platform r)) df).
Proof.
  split; [apply groupby_all_rows|]. split; [apply groupby_all_rows|].
  split; apply Forall_forall.
  - intros [p rows] I. simpl. split.
    + exact (groupby_group_nonempty _ _ _ _ I).
    + apply groupby_In in I. subst rows. apply filter_ext.
      intros r. apply string_keqb.
  - intros [[d p] rows] I. simpl. split.
    + exact (groupby_group_nonempty _ _ _ _ I).
    + apply groupby_In in I. subst rows. apply filter_ext.
      intros r. apply pair_keqb.
Qed.

(** ** Integer columns through a grouping *)

Lemma sumZ_snoc (l : list Z) (x : Z) : sumZ (l ++ [x]) = sumZ l + x.
Proof. induction l as [|y l IH]; simpl; lia. Qed.

Lemma groups_sumZ_add {K R : Type} `{GroupKey K} (f : R -> Z) (k : K) (r : R)
  (groups : list (K * list R)) :
  groups_sumZ f (add_to_group k r groups) = groups_sumZ f groups + f r.
Proof.
  unfold groups_sumZ. induction groups as [|[k' rows] rest IH]; simpl.
  - lia.
  - destruct (kcmp k k'); simpl.
    + rewrite map_app; simpl. rewrite sumZ_snoc. lia.
    + lia.
    + rewrite IH. lia.
Qed.

Lemma groupby_acc_sumZ {K R : Type} `{GroupKey K} (key : R -> K) (f : R -> Z)
  (df : list R) (acc : list (K * list R)) :
  groups_sumZ f (fold_left (fun g r => add_to_group (key r) r g) df acc)
  = groups_sumZ f acc + sumZ (map f df).
Proof.
  revert acc. induction df as [|r df IH]; simpl; intros acc.
  - lia.
  - rewrite IH, groups_sumZ_add. lia.
Qed.

Lemma groupby_sumZ {K R : Type} `{GroupKey K} (key : R -> K) (f : R -> Z)
  (df : list R) :
  groups_sumZ f (groupby key df) = sumZ (map f df).
Proof. unfold groupby. rewrite groupby_acc_sumZ. reflexivity. Qed.

(** ** The per-platform table, row by row *)

Lemma by_platform_platforms (df : DataFrame) :
  map p_platform (by_platform df) = keys (groupby platform df).
Proof.
  unfold by_platform, platform_sums, keys. cbv zeta. rewrite !map_map.
  reflexivity.
Qed.

(** The table has one row per platform of the frame, in increasing order of
    the platform name. *)
Theorem by_platform_one_row_per_platform (df : DataFrame) :
  StronglySorted platform_lt (map p_platform (by_platform df)) /\
  NoDup (map p_platform (by_platform df)) /\
  (forall p, In p (map p_platform (by_platform df)) <->
             In p (map platform df)).
Proof.
  rewrite by_platform_platforms. split; [|split].
  - exact (groupby_sorted platform df).
  - apply groupby_NoDup.
  - intros p. apply groupby_keys.
Qed.

(** The four sums of a table row are the sums over the rows of the frame
    that carry the platform of the row. *)
Theorem by_platform_sums_of_rows (df : DataFrame) :
  Forall (fun p =>
            let rows := rows_of_platform (p_platform p) df in
            p_spend p = sumQ (map spend rows) /\
            p_impressions p = sumZ (map impressions rows) /\
            p_clicks p = sumZ (map clicks rows) /\
            p_conversions p = sumZ (map conversions rows))
         (by_platform df).
Proof.
  apply Forall_forall. intros p I.
  apply by_platform_In in I. destruct I as [s [I ->]].
  apply platform_sums_In in I. cbv zeta.
  unfold derive; cbn [p_platform p_spend p_impressions p_clicks p_conversions].
  rewrite I at 1 3 5 7. simpl. repeat split.
Qed.

(** The impressions, clicks and conversions of the table rows add up to the
    overall totals. *)
Theorem platform_counters_sum_to_totals (df : DataFrame) :
  sumZ (map p_impressions (by_platform df)) = tot_impressions df /\
  sumZ (map p_clicks (by_platform df)) = tot_clicks df /\
  sumZ (map p_conversions (by_platform df)) = tot_conversions df.
Proof.
  unfold by_platform, platform_sums. cbv zeta. rewrite !map_map.
  repeat split.
  - exact (groupby_sumZ platform impressions df).
  - exact (groupby_sumZ platform clicks df).
  - exact (groupby_sumZ platform conversions df).
Qed.

(** ** Which derived values are numbers *)

Lemma Qsign_inject_Z (z : Z) : Qsign (inject_Z z) = (z ?= 0).
Proof. unfold Qsign, Qcompare, inject_Z; simpl. now rewrite Z.mul_1_r. Qed.

Lemma Qsign_zero (q : Q) : (q == 0)%Q -> Qsign q = Eq.
Proof. intros E. unfold Qsign. now apply Qeq_alt. Qed.

Lemma derive_cost_per_conv_notna (t : Q) (s : PlatformSums) :
  notna (cost_per_conv (derive t s)) = negb (s_conversions s =? 0).
Proof.
  unfold derive; cbn [cost_per_conv]. unfold replace_zero_nan.
  destruct (Z.eqb_spec (s_conversions s) 0) as [E|N]; [reflexivity|].
  unfold of_int. rewrite fdiv_finite; [reflexivity|].
  rewrite Qsign_inject_Z. now rewrite Z.compare_eq_iff.
Qed.

Lemma eff_as_filter (df : DataFrame) :
  eff df = filter (fun p => negb (p_conversions p =? 0)) (by_platform df).
Proof.
  unfold eff. apply filter_ext_in. intros p I.
  apply by_platform_In in I. destruct I as [s [_ ->]].
  apply derive_cost_per_conv_notna.
Qed.

(** The efficiency chart shows the table rows of the platforms that have
    conversions, in table order; the platforms without conversions are left
    out. *)
Theorem eff_keeps_platforms_with_conversions (df : DataFrame) :
  eff df = filter (fun p => negb (p_conversions p =? 0)) (by_platform df).
Proof. apply eff_as_filter. Qed.

Lemma ctr_pct_closed_form (df : DataFrame) :
  Forall (fun p =>
            ctr_pct p =
            if p_impressions p =? 0
            then match p_clicks p ?= 0 with
                 | Eq => NaN
                 | Gt => PInf
                 | Lt => NInf
                 end
            else Fin (qround 2 (inject_Z (p_clicks p)
                                / inject_Z (p_impressions p) * 100)))
         (by_platform df).
Proof.
  apply Forall_forall. intros p I.
  destruct (Z.eqb_spec (p_impressions p) 0) as [E|N].
  - now apply (ctr_pct_zero_impressions df).
  - apply by_platform_In in I. destruct I as [s [_ ->]].
    unfold derive in *; cbn [p_impressions p_clicks ctr_pct] in *.
    unfold of_int. rewrite fdiv_finite; [reflexivity|].
    rewrite Qsign_inject_Z. now rewrite Z.compare_eq_iff.
Qed.



(** ** Ranges of the derived values *)

Lemma rint_ge (x : Q) (n : Z) : (inject_Z n <= x)%Q -> n <= rint x.
Proof.
  intros L. apply Qfloor_resp_le in L. rewrite Qfloor_Z in L.
  unfold rint. destruct (Qcompare _ _); [destruct (Z.even _)| |]; lia.
Qed.

Lemma rint_le (x : Q) (n : Z) : (x <= inject_Z n)%Q -> rint x <= n.
Proof.
  intros L. pose proof (Qfloor_le x) as F.
  pose proof (Qfloor_resp_le _ _ L) as FL. rewrite Qfloor_Z in FL.
  unfold rint.
  destruct (Qcompare (x - inject_Z (Qfloor x)) (1 # 2)) eqn:E; [| exact FL |].
  - apply Qeq_alt in E.
    assert (S : (inject_Z (Qfloor x) < inject_Z n)%Q) by lra.
    rewrite <- Zlt_Qlt in S. destruct (Z.even _); lia.
  - apply Qgt_alt in E.
    assert (S : (inject_Z (Qfloor x) < inject_Z n)%Q) by lra.
    rewrite <- Zlt_Qlt in S. lia.
Qed.

(** Rounding keeps a value between 0 and 100 there. *)
Lemma qround_percent (d : nat) (x : Q) :
  (0 <= x <= 100)%Q -> (0 <= qround d x <= 100)%Q.
Proof.
  intros [L U]. pose proof (pow10_Qpos d) as P. unfold qround. split.
  - apply Qle_shift_div_l; [exact P|]. rewrite Qmult_0_l.
    change 0%Q with (inject_Z 0). rewrite <- Zle_Qle. apply rint_ge.
    change (inject_Z 0) with 0%Q. nra.
  - apply Qle_shift_div_r; [exact P|].
    change 100%Q with (inject_Z 100). rewrite <- inject_Z_mult, <- Zle_Qle.
    apply rint_le. rewrite inject_Z_mult. change (inject_Z 100) with 100%Q.
    nra.
Qed.

Lemma clicks_in_range_sums (rows : DataFrame) :
  Forall clicks_in_range rows ->
  0 <= sumZ (map clicks rows) <= sumZ (map impressions rows).
Proof.
  induction 1 as [|r rows R _ IH]; simpl; [lia|].
  unfold clicks_in_range in R. lia.
Qed.

Lemma Forall_filter_list {A : Type} (P : A -> Prop) (f : A -> bool) (l : list A) :
  Forall P l -> Forall P (filter f l).
Proof.
  rewrite !Forall_forall. intros F x I. apply filter_In in I. now apply F.
Qed.

(** When every row has its clicks between 0 and its impressions, [ctr_pct]
    is a number between 0 and 100 for a platform with impressions and [nan]
    for a platform without: an infinity does not occur. *)
Theorem ctr_pct_is_a_percentage (df : DataFrame) :
  Forall clicks_in_range df ->
  Forall (fun p =>
            if p_impressions p =? 0 then ctr_pct p = NaN
            else finite_between 0 100 (ctr_pct p))
         (by_platform df).
Proof.
  intros W. apply Forall_forall. intros p I.
  pose proof (proj1 (Forall_forall _ _) (ctr_pct_closed_form df) p I) as C.
  cbv beta in C. rewrite C. clear C.
  apply by_platform_In in I. destruct I as [s [I ->]].
  apply platform_sums_In in I.
  unfold derive; cbn [p_impressions p_clicks].
  assert (R : 0 <= s_clicks s <= s_impressions s).
  { rewrite I. simpl. apply clicks_in_range_sums.
    now apply Forall_filter_list. }
  destruct (Z.eqb_spec (s_impressions s) 0) as [E|N].
  - replace (s_clicks s) with 0 by lia. reflexivity.
  - simpl. apply qround_percent.
    assert (Pi : (0 < inject_Z (s_impressions s))%Q).
    { change 0%Q with (inject_Z 0). rewrite <- Zlt_Qlt. lia. }
    assert (Pc : (0 <= inject_Z (s_clicks s))%Q).
    { change 0%Q with (inject_Z 0). rewrite <- Zle_Qle. lia. }
    assert (Pl : (inject_Z (s_clicks s) <= inject_Z (s_impressions s))%Q).
    { rewrite <- Zle_Qle. lia. }
    assert (Q01 : (0 <= inject_Z (s_clicks s) / inject_Z (s_impressions s) <= 1)%Q).
    { split.
      - apply Qle_shift_div_l; [exact Pi|]. lra.
      - apply Qle_shift_div_r; [exact Pi|]. lra. }
    lra.
Qed.

Lemma ctr_pct_is_a_percentage_witness :
  Forall (fun p =>
            if p_impressions p =? 0 then ctr_pct p = NaN
            else finite_between 0 100 (ctr_pct p))
         (by_platform two_days).
Proof.
  apply (ctr_pct_is_a_percentage two_days).
  repeat constructor; simpl; lia.
Defined.

Lemma sumQ_nonneg (l : list Q) : Forall (fun x => 0 <= x)%Q l -> (0 <= sumQ l)%Q.
Proof. induction 1; simpl; lra. Qed.

Lemma sumQ_member_le (x : Q) (l : list Q) :
  Forall (fun y => 0 <= y)%Q l -> In x l -> (x <= sumQ l)%Q.
Proof.
  induction 1 as [|y l Y F IH]; simpl; [tauto|].
  pose proof (sumQ_nonneg l F). intros [->|I]; [lra|].
  specialize (IH I). lra.
Qed.

Lemma platform_sums_nonneg (df : DataFrame) :
  Forall spend_nonneg df ->
  Forall (fun y => 0 <= y)%Q (map s_spend (platform_sums df)).
Proof.
  intros W. apply Forall_forall. intros y I. apply in_map_iff in I.
  destruct I as [s [<- I]]. apply platform_sums_In in I. rewrite I. simpl.
  apply sumQ_nonneg. apply Forall_forall. intros x J.
  apply in_map_iff in J. destruct J as [r [<- J]].
  apply filter_In in J. rewrite Forall_forall in W. apply W, J.
Qed.

(** When no row has a negative spend and the total spend is positive, every
    share of spend is a number between 0 and 100. *)
Theorem share_of_spend_is_a_percentage (df : DataFrame) :
  Forall spend_nonneg df ->
  (0 < tot_spend df)%Q ->
  Forall (fun p => finite_between 0 100 (share_of_spend p)) (by_platform df).
Proof.
  intros W P. apply Forall_forall. intros p I.
  apply by_platform_In in I. destruct I as [s [I ->]].
  pose proof (platform_sums_nonneg df W) as NN.
  pose proof (platform_sums_spend df) as T.
  set (total := sumQ (map s_spend (platform_sums df))) in *.
  assert (Pt : (0 < total)%Q) by lra.
  assert (L : (0 <= s_spend s)%Q).
  { rewrite Forall_forall in NN. apply NN. now apply in_map. }
  assert (U : (s_spend s <= total)%Q).
  { apply sumQ_member_le; [exact NN|]. now apply in_map. }
  unfold derive; cbn [share_of_spend]. rewrite fdiv_finite.
  - simpl. apply qround_percent.
    assert (Q01 : (0 <= s_spend s / total <= 1)%Q).
    { split.
      - apply Qle_shift_div_l; [exact Pt|]. lra.
      - apply Qle_shift_div_r; [exact Pt|]. lra. }
    lra.
  - unfold Qsign. intros E. apply Qeq_alt in E. lra.
Qed.

Lemma share_of_spend_is_a_percentage_witness :
  Forall (fun p => finite_between 0 100 (share_of_spend p))
         (by_platform two_days).
Proof.
  apply (share_of_spend_is_a_percentage two_days).
  - repeat constructor; discriminate.
  - reflexivity.
Defined.

(** ** The lines of the time charts *)










Lemma sorted_map_filter {A : Type} (g : A -> Z) (f : A -> bool) (l : list A) :
  StronglySorted Z.le (map g l) -> StronglySorted Z.le (map g (filter f l)).
Proof.
  induction l as [|a l IH]; simpl; intros S; [constructor|].
  inversion S as [|? ? S' F]; subst.
  destruct (f a); simpl; [|now apply IH].
  constructor; [now apply IH|].
  rewrite Forall_forall in *. intros z I. apply F.
  apply in_map_iff in I. destruct I as [b [<- I]].
  apply filter_In in I. apply in_map, I.
Qed.

(** When the daily table comes ordered by date, as its query asks, the points
    of every line of the daily mode are in date order. *)
Theorem daily_traces_keep_date_order (y : DailyRow -> Q) (daily : DailyFrame) :
  StronglySorted Z.le (map d_date daily) ->
  Forall (fun t => StronglySorted Z.le (xs t)) (daily_traces y daily).
Proof.
  intros S. apply Forall_forall. intros t I. unfold daily_traces in I.
  apply in_map_iff in I. destruct I as [p [<- _]]. simpl.
  now apply sorted_map_filter.
Qed.

Lemma daily_traces_keep_date_order_witness :
  Forall (fun t => StronglySorted Z.le (xs t))
         (daily_traces d_spend two_days_daily).
Proof.
  apply (daily_traces_keep_date_order d_spend two_days_daily).
  repeat constructor; simpl; lia.
Defined.

(** ** Which page [main] shows *)

Lemma main_supabase (b : Backend) (s : Session) :
  use_supabase s = Supabase ->
  main b s =
  if nonempty (database_url s) then
    if bad_url (database_url s) then NoDataPage
    else match pg_unified_ads b (database_url s) with
         | Raised e => ErrorPage (error_prefix Supabase ++ e)%string
         | Returned df =>
             render "Supabase (unified_ads)" (Some df)
               (match pg_unified_ads_daily_summary b (database_url s) with
                | Returned d => Some d
                | Raised _ => None
                end)
         end
  else SetupPage Supabase.
Proof.
  intros U. unfold main. rewrite U.
  unfold load_unified_from_postgres, load_daily_from_postgres.
  destruct (nonempty (database_url s)); [|reflexivity].
  destruct (bad_url (database_url s)); [reflexivity|].
  destruct (pg_unified_ads b (database_url s)); [|reflexivity].
  destruct (pg_unified_ads_daily_summary b (database_url s)); reflexivity.
Qed.

Lemma main_bigquery (b : Backend) (s : Session) :
  use_supabase s = BigQuery ->
  main b s =
  if nonempty (project s) && nonempty (dataset s) then
    match bq_unified_ads b (project s) (dataset s) with
    | Raised e => ErrorPage (error_prefix BigQuery ++ e)%string
    | Returned df =>
        render "BigQuery" (Some df)
          (match bq_unified_ads_daily_summary b (project s) (dataset s) with
           | Returned d => Some d
           | Raised _ => None
           end)
    end
  else SetupPage BigQuery.
Proof.
  intros U. unfold main. rewrite U.
  unfold load_unified_from_bigquery, load_daily_from_bigquery.
  destruct (nonempty (project s)); [|reflexivity].
  destruct (nonempty (dataset s)); [|reflexivity]. simpl.
  destruct (bq_unified_ads b (project s) (dataset s)); [|reflexivity].
  destruct (bq_unified_ads_daily_summary b (project s) (dataset s)); reflexivity.
Qed.

Lemma render_not_error (label : string) (df : option DataFrame)
  (daily : option DailyFrame) (msg : string) :
  render label df daily <> ErrorPage msg.
Proof.
  unfold render. destruct df as [df|]; [|discriminate].
  destruct (empty df); discriminate.
Qed.

Lemma render_not_setup (label : string) (df : option DataFrame)
  (daily : option DailyFrame) (db : Database) :
  render label df daily <> SetupPage db.
Proof.
  unfold render. destruct df as [df|]; [|discriminate].
  destruct (empty df); discriminate.
Qed.

Lemma render_no_data (label : string) (df : DataFrame)
  (daily : option DailyFrame) :
  render label (Some df) daily = NoDataPage <-> df = [].
Proof.
  unfold render. destruct df; simpl; split; congruence.
Qed.


(** [main] shows the error box exactly when the unified query of the
    selected store raised, with the exception text after the store's
    message; a failure of the daily query never leads there. *)
Theorem error_page_iff_unified_query_raised (b : Backend) (s : Session)
  (msg : string) :
  main b s = ErrorPage msg <->
  exists e, unified_query b s = Some (Raised e) /\
            msg = (error_prefix (use_supabase s) ++ e)%string.
Proof.
  unfold unified_query. destruct (use_supabase s) eqn:U.
  - rewrite (main_supabase b s U).
    destruct (nonempty (database_url s)); cbn [andb negb];
      [|split; [discriminate|intros [e [? _]]; discriminate]].
    destruct (bad_url (database_url s)); cbn [andb negb];
      [split; [discriminate|intros [e [? _]]; discriminate]|].
    destruct (pg_unified_ads b (database_url s)) as [df|e].
    + split; [intros E; now apply render_not_error in E|].
      intros [e [? _]]; discriminate.
    + split.
      * intros [= <-]. now exists e.
      * intros [e' [[= <-] ->]]. reflexivity.
  - rewrite (main_bigquery b s U).
    destruct (nonempty (project s) && nonempty (dataset s)); cbn [andb negb];
      [|split; [discriminate|intros [e [? _]]; discriminate]].
    destruct (bq_unified_ads b (project s) (dataset s)) as [df|e].
    + split; [intros E; now apply render_not_error in E|].
      intros [e [? _]]; discriminate.
    + split.
      * intros [= <-]. now exists e.
      * intros [e' [[= <-] ->]]. reflexivity.
Qed.

(** The "no data" warning is shown exactly when the unified query returned a
    frame without rows, or when Supabase is selected with a URL that does not
    start with [postgresql]; in the second case the store is not asked. *)
Theorem no_data_page_iff (b : Backend) (s : Session) :
  main b s = NoDataPage <->
  unified_query b s = Some (Returned []) \/
  (use_supabase s = Supabase /\ nonempty (database_url s) = true /\
   bad_url (database_url s) = true).
Proof.
  unfold unified_query. destruct (use_supabase s) eqn:U.
  - rewrite (main_supabase b s U).
    destruct (nonempty (database_url s)); cbn [andb negb].
    + destruct (bad_url (database_url s)); cbn [andb negb]; [intuition|].
      destruct (pg_unified_ads b (database_url s)) as [df|e].
      * rewrite render_no_data. split.
        -- intros ->. now left.
        -- intros [[= ->]|(_ & _ & ?)]; [reflexivity|discriminate].
      * split; [discriminate|].
        intros [?|(_ & _ & ?)]; discriminate.
    + split; [discriminate|]. intros [?|(_ & ? & _)]; discriminate.
  - rewrite (main_bigquery b s U).
    destruct (nonempty (project s) && nonempty (dataset s)); cbn [andb negb].
    + destruct (bq_unified_ads b (project s) (dataset s)) as [df|e].
      * rewrite render_no_data. split.
        -- intros ->. now left.
        -- intros [[= ->]|(? & _)]; [reflexivity|discriminate].
      * split; [discriminate|]. intros [?|(? & _)]; discriminate.
    + split; [discriminate|]. intros [?|(? & _)]; discriminate.
Qed.

(** The setup instructions are shown exactly when the connection parameters
    of the selected store are missing: no URL for Supabase, no project or no
    dataset for BigQuery; the instructions are those of the selected store. *)
Theorem setup_page_iff (b : Backend) (s : Session) (db : Database) :
  main b s = SetupPage db <->
  db = use_supabase s /\
  match db with
  | Supabase => nonempty (database_url s) = false
  | BigQuery => nonempty (project s) && nonempty (dataset s) = false
  end.
Proof.
  destruct (use_supabase s) eqn:U.
  - rewrite (main_supabase b s U).
    destruct (nonempty (database_url s)); cbn [andb negb].
    + split.
      * destruct (bad_url (database_url s)); [discriminate|].
        destruct (pg_unified_ads b (database_url s)); [|discriminate].
        intros E. now apply render_not_setup in E.
      * intros [-> ?]. discriminate.
    + split; [intros [= <-]; auto|intros [-> _]; reflexivity].
  - rewrite (main_bigquery b s U).
    destruct (nonempty (project s) && nonempty (dataset s)); cbn [andb negb].
    + split.
      * destruct (bq_unified_ads b (project s) (dataset s)); [|discriminate].
        intros E. now apply render_not_setup in E.
      * intros [-> ?]. discriminate.
    + split; [intros [= <-]; auto|intros [-> _]; reflexivity].
Qed.

(** ** The URL guard of the Postgres loaders *)

Lemma prefix_as_chars (w s : string) :
  String.prefix w s = true <->
  exists u, list_ascii_of_string s = list_ascii_of_string w ++ u.
Proof.
  revert s. induction w as [|a w IH]; intros s.
  - split; [intros _; now exists (list_ascii_of_string s)|].
    intros _. destruct s; reflexivity.
  - destruct s as [|c s]; simpl.
    + split; [discriminate|intros [u E]; discriminate].
    + destruct (ascii_dec a c) as [->|N].
      * rewrite IH. split; intros [u E]; exists u; congruence.
      * split; [discriminate|intros [u E]; congruence].
Qed.

(** ** The time series against the per-platform table *)

Lemma sumZ_zeros {A : Type} (l : list A) : sumZ (map (fun _ => 0) l) = 0.
Proof. induction l as [|a l IH]; simpl; lia. Qed.

Lemma sumZ_map_ext {A : Type} (f g : A -> Z) (l : list A) :
  (forall a, In a l -> f a = g a) -> sumZ (map f l) = sumZ (map g l).
Proof.
  induction l as [|x l IH]; simpl; intros E; [reflexivity|].
  rewrite (E x) by now left. rewrite IH; [reflexivity|].
  intros; apply E; now right.
Qed.

Lemma sumZ_of_platform (f : UnifiedRecord -> Z) (p : string) (df : DataFrame) :
  sumZ (map f (rows_of_platform p df)) =
  sumZ (map (fun r => if String.eqb p (platform r) then f r else 0) df).
Proof.
  unfold rows_of_platform. induction df as [|r df IH]; simpl; [reflexivity|].
  destruct (String.eqb p (platform r)); simpl; rewrite IH; lia.
Qed.

Lemma daily_groups_by_platform (df : DataFrame) :
  groups_by_platform (groupby (fun r => (date r, platform r)) df).
Proof.
  apply Forall_forall. intros [[d q] rows] I. simpl.
  apply groupby_In in I. subst rows. apply Forall_forall. intros r J.
  apply filter_In in J. destruct J as [_ E].
  rewrite pair_keqb in E. apply andb_true_iff in E. destruct E as [_ E].
  apply String.eqb_eq in E. now symmetry.
Qed.

Lemma line_conversions (p : string)
  (G : list ((Date * string) * list UnifiedRecord)) :
  groups_by_platform G ->
  sumZ (map a_conversions
          (filter (fun a => String.eqb (a_platform a) p) (map agg_daily G)))
  = groups_sumZ (fun r => if String.eqb p (platform r) then conversions r else 0) G.
Proof.
  unfold groups_sumZ. induction 1 as [|[[d q] rows] G R _ IH]; simpl.
  - reflexivity.
  - simpl in R. rewrite Forall_forall in R.
    destruct (String.eqb_spec q p) as [->|N]; simpl; rewrite IH.
    + rewrite (sumZ_map_ext (fun r => if String.eqb p (platform r)
                                      then conversions r else 0) conversions).
      * reflexivity.
      * intros r I. rewrite (R r I), String.eqb_refl. reflexivity.
    + rewrite (sumZ_map_ext (fun r => if String.eqb p (platform r)
                                      then conversions r else 0) (fun _ => 0)).
      * rewrite sumZ_zeros. lia.
      * intros r I. rewrite (R r I).
        destruct (String.eqb_spec p q); [congruence|reflexivity].
Qed.

(** ** When the efficiency chart is drawn *)

Lemma sumZ_nonneg_zero (l : list Z) :
  Forall (fun z => 0 <= z) l -> (sumZ l = 0 <-> Forall (fun z => z = 0) l).
Proof.
  induction 1 as [|z l Z F IH]; simpl.
  - split; constructor.
  - assert (S : 0 <= sumZ l).
    { clear IH. induction F; simpl; lia. }
    split.
    + intros E. constructor; [lia|]. apply IH. lia.
    + intros A. inversion A as [|? ? Ez Al]; subst.
      apply IH in Al. lia.
Qed.

Lemma platform_conversions_nonneg (df : DataFrame) :
  Forall conversions_nonneg df ->
  Forall (fun z => 0 <= z) (map p_conversions (by_platform df)).
Proof.
  intros W. apply Forall_forall. intros z I. apply in_map_iff in I.
  destruct I as [p [<- I]]. apply by_platform_In in I.
  destruct I as [s [I ->]]. apply platform_sums_In in I.
  unfold derive; cbn [p_conversions]. rewrite I. simpl.
  assert (F : Forall conversions_nonneg (rows_of_platform (s_platform s) df))
    by now apply Forall_filter_list.
  clear I. induction F as [|r rows R _ IH]; simpl; [lia|].
  unfold conversions_nonneg in R. lia.
Qed.

(** With no negative conversion count in the frame, the efficiency chart has
    no bar, and is therefore not drawn, exactly when the frame has no
    conversions at all. *)
Theorem eff_empty_iff_no_conversions (df : DataFrame) :
  Forall conversions_nonneg df ->
  (eff df = [] <-> tot_conversions df = 0).
Proof.
  intros W. pose proof (platform_conversions_nonneg df W) as NN.
  assert (T : sumZ (map p_conversions (by_platform df)) = tot_conversions df).
  { unfold by_platform, platform_sums. cbv zeta. rewrite !map_map.
    exact (groupby_sumZ platform conversions df). }
  rewrite <- T, (sumZ_nonneg_zero _ NN), eff_as_filter.
  rewrite Forall_map. split.
  - intros E. apply Forall_forall. intros p I.
    destruct (Z.eqb_spec (p_conversions p) 0) as [Z|N]; [exact Z|].
    assert (J : In p (filter (fun p => negb (p_conversions p =? 0))
                             (by_platform df))).
    { apply filter_In. split; [exact I|].
      apply negb_true_iff. now apply Z.eqb_neq. }
    rewrite E in J. contradiction.
  - intros A. rewrite Forall_forall in A.
    destruct (filter _ _) as [|p l] eqn:E; [reflexivity|].
    assert (J : In p (filter (fun p => negb (p_conversions p =? 0))
                             (by_platform df))) by (rewrite E; now left).
    apply filter_In in J. destruct J as [I B].
    rewrite (A p I) in B. discriminate.
Qed.

Lemma eff_empty_iff_no_conversions_witness :
  eff no_conversions = [] /\ tot_conversions no_conversions = 0.
Proof.
  split; [|reflexivity].
  apply (eff_empty_iff_no_conversions no_conversions).
  - repeat constructor. unfold conversions_nonneg. simpl. lia.
  - reflexivity.
Defined.

(** ** Frames with the same rows in another order *)

Lemma Qsign_comp (x y : Q) : (x == y)%Q -> Qsign x = Qsign y.
Proof. intros E. unfold Qsign. apply Qcompare_comp; [exact E|reflexivity]. Qed.

Lemma sumZ_perm (l l' : list Z) : Permutation l l' -> sumZ l = sumZ l'.
Proof. induction 1; simpl; lia. Qed.

(** Two strictly increasing lists with the same elements are the same list. *)
Lemma sorted_keys_unique {K : Type} `{GroupKeyOk K} (l1 l2 : list K) :
  StronglySorted klt l1 -> StronglySorted klt l2 ->
  (forall x, In x l1 <-> In x l2) -> l1 = l2.
Proof.
  intros S1. revert l2. induction S1 as [|a l1 S1 IH F1]; intros l2 S2 E.
  - destruct l2 as [|b l2]; [reflexivity|].
    exfalso. apply (proj2 (E b)). now left.
  - destruct S2 as [|b l2 S2 F2].
    + exfalso. apply (proj1 (E a)). now left.
    + rewrite Forall_forall in F1, F2.
      assert (Eab : a = b).
      { destruct (proj1 (E a) (or_introl eq_refl)) as [Hb|Ha]; [now symmetry|].
        destruct (proj2 (E b) (or_introl eq_refl)) as [Hb|Hb]; [exact Hb|].
        exfalso. apply (klt_irrefl a).
        exact (kcmp_trans _ _ _ (F1 b Hb) (F2 a Ha)). }
      subst b. f_equal. apply IH; [exact S2|]. intros x. split; intros I.
      * destruct (proj1 (E x) (or_intror I)) as [<-|J]; [|exact J].
        exfalso. exact (klt_irrefl a (F1 a I)).
      * destruct (proj2 (E x) (or_intror I)) as [<-|J]; [|exact J].
        exfalso. exact (klt_irrefl a (F2 a I)).
Qed.

Lemma platform_keys_perm (df df' : DataFrame) :
  Permutation df df' ->
  keys (groupby platform df) = keys (groupby platform df').
Proof.
  intros P. apply sorted_keys_unique; try apply groupby_sorted.
  intros x. rewrite !(groupby_keys platform).
  split; apply Permutation_in; [|symmetry]; now apply Permutation_map.
Qed.

Lemma sumZ_of_platform_perm (f : UnifiedRecord -> Z) (p : string)
  (df df' : DataFrame) :
  Permutation df df' ->
  sumZ (map f (rows_of_platform p df)) = sumZ (map f (rows_of_platform p df')).
Proof.
  intros P. rewrite !sumZ_of_platform. apply sumZ_perm.
  now apply Permutation_map.
Qed.

(* ================================================================== *)
(** * Properties of the computations in double precision *)

(** ** Rounding to a double keeps the sign *)

Lemma two_power_pos (k : Z) : (0 < 2 ^ k)%Q.
Proof. apply Qpower_0_lt. reflexivity. Qed.

Lemma Qabs_as_quotient (q : Q) :
  (Qabs q == inject_Z (Z.abs (Qnum q)) / inject_Z (Zpos (Qden q)))%Q.
Proof. destruct q as [n d]. simpl. apply Qmake_Qdiv. Qed.

Lemma exponent_le (q : Q) : ~ (q == 0)%Q -> (2 ^ exponent q <= Qabs q)%Q.
Proof.
  intros N. unfold exponent.
  set (n := Z.abs (Qnum q)). set (d := Zpos (Qden q)).
  destruct (Qle_bool (2 ^ (Z.log2 n - Z.log2 d)) (Qabs q)) eqn:T.
  - now apply Qle_bool_iff.
  - clear T.
    assert (Pn : 0 < n).
    { unfold n. destruct q as [qn qd]. unfold Qeq in N. simpl in *. lia. }
    assert (Pd : 0 < d) by (unfold d; lia).
    pose proof (Z.log2_nonneg n) as La. pose proof (Z.log2_nonneg d) as Lb.
    destruct (Z.log2_spec n Pn) as [An _].
    destruct (Z.log2_spec d Pd) as [_ Bd].
    replace (Z.log2 n - Z.log2 d - 1) with (Z.log2 n - Z.succ (Z.log2 d)) by lia.
    rewrite Qpower_minus by discriminate.
    rewrite <- !(Zpower_Qpower 2) by lia.
    rewrite Qabs_as_quotient. fold n d.
    assert (Qa : (inject_Z (2 ^ Z.log2 n) <= inject_Z n)%Q)
      by (rewrite <- Zle_Qle; exact An).
    assert (Qb : (inject_Z d <= inject_Z (2 ^ Z.succ (Z.log2 d)))%Q)
      by (rewrite <- Zle_Qle; lia).
    assert (Qd : (0 < inject_Z d)%Q)
      by (change 0%Q with (inject_Z 0); rewrite <- Zlt_Qlt; exact Pd).
    assert (Qp : (0 < inject_Z (2 ^ Z.log2 n))%Q).
    { change 0%Q with (inject_Z 0). rewrite <- Zlt_Qlt.
      apply Z.pow_pos_nonneg; lia. }
    apply Qle_shift_div_l; [exact Qd|].
    assert (E : (inject_Z (2 ^ Z.log2 n) / inject_Z (2 ^ Z.succ (Z.log2 d))
                 * inject_Z d ==
                 inject_Z (2 ^ Z.log2 n) * inject_Z d
                 / inject_Z (2 ^ Z.succ (Z.log2 d)))%Q) by (field; lra).
    rewrite E. apply Qle_shift_div_r; [lra|]. nra.
Qed.

(** A number that is not zero has a significand of at least one. *)
Lemma scaled_magnitude (q : Q) :
  ~ (q == 0)%Q -> (1 <= Qabs q * 2 ^ (52 - exponent q))%Q.
Proof.
  intros N. pose proof (exponent_le q N) as L.
  pose proof (two_power_pos (52 - exponent q)) as P.
  assert (E : (2 ^ exponent q * 2 ^ (52 - exponent q) == 2 ^ 52)%Q).
  { rewrite <- Qpower_plus by discriminate.
    replace (exponent q + (52 - exponent q)) with 52 by lia. reflexivity. }
  assert (B : (1 <= 2 ^ 52)%Q) by discriminate.
  rewrite <- E in B. nra.
Qed.

Lemma nearest_double_sign (q : Q) : Qsign (nearest_double q) = Qsign q.
Proof.
  unfold nearest_double. destruct (Qeq_bool q 0) eqn:Z.
  - apply Qeq_bool_iff in Z. symmetry. now apply Qsign_zero.
  - apply Qeq_bool_neq in Z.
    pose proof (scaled_magnitude q Z) as M.
    pose proof (two_power_pos (52 - exponent q)) as P.
    set (s := (2 ^ (52 - exponent q))%Q) in *.
    rewrite (Qsign_comp _ _ (Qred_correct _)).
    unfold Qsign. destruct (Qcompare q 0) eqn:C.
    + apply Qeq_alt in C. contradiction.
    + apply Qlt_alt in C. apply Qlt_alt.
      assert (X : (q * s <= inject_Z (-1))%Q).
      { rewrite Qabs_neg in M by lra. change (inject_Z (-1)) with (-1)%Q. nra. }
      apply rint_le in X.
      apply Qlt_shift_div_r; [exact P|]. rewrite Qmult_0_l.
      change 0%Q with (inject_Z 0). rewrite <- Zlt_Qlt. lia.
    + apply Qgt_alt in C. apply Qgt_alt.
      assert (X : (inject_Z 1 <= q * s)%Q).
      { rewrite Qabs_pos in M by lra. exact M. }
      apply rint_ge in X.
      apply Qlt_shift_div_l; [exact P|]. rewrite Qmult_0_l.
      change 0%Q with (inject_Z 0). rewrite <- Zlt_Qlt. lia.
Qed.

Lemma int_to_double_sign (z : Z) : Qsign (int_to_double z) = (z ?= 0).
Proof. unfold int_to_double. now rewrite nearest_double_sign, Qsign_inject_Z. Qed.

Lemma int_to_double_nonzero (z : Z) : z <> 0 -> Qsign (int_to_double z) <> Eq.
Proof. intros N. rewrite int_to_double_sign. now rewrite Z.compare_eq_iff. Qed.

(** ** The per-platform table in double precision *)

Lemma by_platform64_In (p : PlatformSummary) (df : DataFrame) :
  In p (by_platform64 df) ->
  exists s, In s (platform_sums64 df) /\
            p = derive64 (np_sum (map s_spend (platform_sums64 df))) s.
Proof.
  unfold by_platform64. cbv zeta. intros I. apply in_map_iff in I.
  destruct I as [s [<- I]]. now exists s.
Qed.

Lemma fdiv64_finite (x y : Q) :
  Qsign y <> Eq -> fdiv64 (Fin x) (Fin y) = Fin (nearest_double (x / y)).
Proof. intros N. unfold fdiv64. now rewrite fdiv_finite. Qed.

(** *** [cost_per_conv] *)

(** C2, as stated, fails: with spend 10 and 3 conversions the column holds
    the double 3.33, which is neither 10/3 nor the float quotient
    3.3333333333333335. *)
Lemma cost_per_conv_is_not_the_quotient :
  exists p, by_platform64 thirds = [p] /\
            0 < p_conversions p /\
            cost_per_conv p = Fin (nearest_double (333 # 100)) /\
            ~ (nearest_double (333 # 100) == p_spend p / inject_Z (p_conversions p))%Q /\
            ~ (nearest_double (333 # 100)
               == nearest_double (p_spend p / inject_Z (p_conversions p)))%Q.
Proof.
  eexists. split; [vm_compute; reflexivity|].
  split; [reflexivity|]. split; [vm_compute; reflexivity|].
  split; vm_compute; discriminate.
Qed.

(** C2 (amended).  A platform group without conversions has [cost_per_conv =
    nan], the missing-value marker, which the table shows as the placeholder;
    a group with conversions has the float quotient spend/conversions rounded
    to 2 decimals, shown as a dollar amount; a number, 0 included, is never
    shown as the placeholder. *)
Theorem cost_per_conv_absent_or_rounded64 (df : DataFrame) (p : PlatformSummary) :
  In p (by_platform64 df) ->
  (p_conversions p = 0 ->
     cost_per_conv p = NaN /\
     fmt_cost_per_conv (cost_per_conv p) = no_value) /\
  (p_conversions p <> 0 ->
     cost_per_conv p =
       Fin (round64 2 (nearest_double
                         (p_spend p / int_to_double (p_conversions p)))) /\
     exists amount,
       fmt_cost_per_conv (cost_per_conv p) = String "$" amount) /\
  (forall q, Fin q <> NaN /\ fmt_cost_per_conv (Fin q) <> no_value).
Proof.
  intros I. apply by_platform64_In in I. destruct I as [s [_ ->]].
  unfold derive64; cbn [p_conversions p_spend cost_per_conv].
  split; [|split].
  - intros Hz. rewrite Hz. split; reflexivity.
  - intros Hz. unfold replace_zero_nan64.
    destruct (Z.eqb_spec (s_conversions s) 0) as [E|_]; [contradiction|].
    unfold of_int64.
    rewrite fdiv64_finite by now apply int_to_double_nonzero.
    split; [reflexivity|]. eexists. reflexivity.
  - intros q. split; discriminate.
Qed.

Lemma cost_per_conv_absent_or_rounded64_witness :
  exists p, In p (by_platform64 thirds) /\
            cost_per_conv p =
              Fin (round64 2 (nearest_double
                                (p_spend p / int_to_double (p_conversions p)))).
Proof.
  exists (derive64 (np_sum (map s_spend (platform_sums64 thirds)))
                   (agg_platform64 ("google", thirds))).
  assert (I : In (derive64 (np_sum (map s_spend (platform_sums64 thirds)))
                           (agg_platform64 ("google", thirds)))
                 (by_platform64 thirds)) by (left; reflexivity).
  split; [exact I|].
  refine (proj1 (proj1 (proj2 (cost_per_conv_absent_or_rounded64 thirds _ I)) _)).
  simpl. discriminate.
Defined.

(** *** The spends of the groups and the total spend *)






(** *** Where values are rounded *)





(** *** [ctr_pct] in closed form *)

(** The value of [ctr_pct] in a table row: with impressions it is the float
    quotient clicks/impressions, times 100, rounded to 2 decimals; without
    impressions it is [nan], [inf] or [-inf] by the sign of the clicks. *)
Theorem ctr_pct64_closed_form (df : DataFrame) :
  Forall (fun p =>
            ctr_pct p =
            if p_impressions p =? 0
            then match p_clicks p ?= 0 with
                 | Eq => NaN
                 | Gt => PInf
                 | Lt => NInf
                 end
            else Fin (round64 2
                        (nearest_double
                           (nearest_double (int_to_double (p_clicks p)
                                            / int_to_double (p_impressions p))
                            * 100))))
         (by_platform64 df).
Proof.
  apply Forall_forall. intros p I.
  apply by_platform64_In in I. destruct I as [s [_ ->]].
  unfold derive64; cbn [p_impressions p_clicks ctr_pct].
  destruct (Z.eqb_spec (s_impressions s) 0) as [E|N].
  - rewrite E. unfold of_int64, fdiv64, fdiv.
    change (Qsign (int_to_double 0)) with (@Eq).
    rewrite int_to_double_sign.
    destruct (s_clicks s ?= 0); reflexivity.
  - unfold of_int64. rewrite fdiv64_finite by now apply int_to_double_nonzero.
    reflexivity.
Qed.

(* ================================================================== *)
(** * Further properties, continued *)

(** ** Conversions in the time series *)

(** The conversions of the rows of the fallback time series add up to the
    overall total. *)
Theorem daily_alt_conversions_sum_to_total (df : DataFrame) :
  sumZ (map a_conversions (daily_alt df)) = tot_conversions df.
Proof.
  unfold daily_alt. rewrite !map_map.
  exact (groupby_sumZ (fun r => (date r, platform r)) conversions df).
Qed.

(** The fallback time series agrees with the per-platform table on the
    conversions: for each platform, the conversions of its rows in the time
    series add up to the conversions of its table row. *)
Theorem time_series_conversions_add_up_to_table (df : DataFrame) :
  Forall (fun p =>
            sumZ (map a_conversions
                    (filter (fun a => String.eqb (a_platform a) (p_platform p))
                            (daily_alt df)))
            = p_conversions p)
         (by_platform df).
Proof.
  apply Forall_forall. intros p I.
  apply by_platform_In in I. destruct I as [s [I ->]].
  apply platform_sums_In in I.
  unfold derive; cbn [p_platform p_conversions].
  assert (Ec : s_conversions s
               = sumZ (map conversions (rows_of_platform (s_platform s) df)))
    by (rewrite I at 1; reflexivity).
  rewrite Ec. unfold daily_alt.
  rewrite line_conversions by apply daily_groups_by_platform.
  rewrite (groupby_sumZ (fun r => (date r, platform r))).
  symmetry. apply sumZ_of_platform.
Qed.

(** ** What [main] shows in a dashboard *)



(** ** Configuration *)

Lemma env_unset_gives_secret (c : Config) (k : string) :
  unset (environ c) k -> env_or_secret c k = secret_or_empty c k.
Proof.
  unfold unset, env_or_secret. intros [E|E]; rewrite E; reflexivity.
Qed.

Lemma env_set_or_unset (c : Config) (k : string) :
  (exists v, v <> "" /\ env_or_secret c k = Returned v) \/ unset (environ c) k.
Proof.
  unfold unset, env_or_secret, nonempty.
  destruct (environ c k) as [v|]; [|now right; left].
  destruct (String.eqb_spec v "") as [->|N]; simpl.
  - right. now right.
  - left. now exists v.
Qed.

Lemma secret_empty_iff (c : Config) (k : string) :
  secret_or_empty c k = Returned "" <->
  exists table, secrets c = Returned table /\ unset table k.
Proof.
  unfold secret_or_empty, unset. destruct (secrets c) as [table|e].
  - split.
    + intros [= E]. exists table. split; [reflexivity|].
      destruct (table k) as [w|]; [right; now subst|now left].
    + intros [t [[= <-] [T|T]]]; rewrite T; reflexivity.
  - split; [discriminate|]. intros [t [? _]]. discriminate.
Qed.

(** A setting is read from the environment when it is there and not empty,
    and then the secrets are not consulted.  Otherwise the lookup raises when
    there is no secrets file, and gives the secret, or the empty text for a
    missing key, when there is one.  [get_bq_config] raises when either of
    its two lookups does. *)
Theorem settings_lookup (c : Config) :
  (forall v, environ c "DATABASE_URL" = Some v -> v <> "" ->
             get_database_url c = Returned v) /\
  (forall e, unset (environ c) "DATABASE_URL" -> secrets c = Raised e ->
             get_database_url c = Raised e) /\
  (forall table, unset (environ c) "DATABASE_URL" ->
                 secrets c = Returned table ->
                 get_database_url c =
                 Returned (match table "DATABASE_URL" with
                           | Some v => v
                           | None => ""
                           end)) /\
  (get_database_url c = Returned "" <->
     unset (environ c) "DATABASE_URL" /\
     exists table, secrets c = Returned table /\ unset table "DATABASE_URL") /\
  (forall e, get_bq_config c = Raised e <->
             env_or_secret c "BQ_PROJECT" = Raised e \/
             (exists p, env_or_secret c "BQ_PROJECT" = Returned p) /\
             env_or_secret c "BQ_DATASET" = Raised e).
Proof.
  unfold get_database_url. split; [|split; [|split; [|split]]].
  - intros v E N. unfold env_or_secret, nonempty.
    rewrite E. destruct v; [congruence|reflexivity].
  - intros e U S. rewrite (env_unset_gives_secret c _ U).
    unfold secret_or_empty. now rewrite S.
  - intros table U S. rewrite (env_unset_gives_secret c _ U).
    unfold secret_or_empty. now rewrite S.
  - split.
    + intros E. destruct (env_set_or_unset c "DATABASE_URL") as [[v [N V]]|U].
      * rewrite V in E. congruence.
      * split; [exact U|]. apply secret_empty_iff.
        now rewrite <- (env_unset_gives_secret c _ U).
    + intros [U S]. rewrite (env_unset_gives_secret c _ U).
      now apply secret_empty_iff.
  - intros e. unfold get_bq_config.
    destruct (env_or_secret c "BQ_PROJECT") as [p|e1].
    + destruct (env_or_secret c "BQ_DATASET") as [d|e2].
      * split; [discriminate|]. intros [?|[_ ?]]; discriminate.
      * split.
        -- intros [= <-]. right. split; [now exists p|reflexivity].
        -- intros [?|[_ [= <-]]]; [discriminate|reflexivity].
    + split.
      * intros [= <-]. now left.
      * intros [[= <-]|[[p ?] _]]; [reflexivity|discriminate].
Qed.

Lemma settings_lookup_witness :
  get_database_url env_only = Returned "postgresql://env" /\
  get_bq_config env_only = Raised "No secrets found".
Proof.
  destruct (settings_lookup env_only) as (A & _ & _ & _ & B).
  split.
  - apply A; [reflexivity|discriminate].
  - apply B. left. reflexivity.
Defined.

(** ** The URL guard of the Postgres loaders, white space included *)

Section Stopper.
Variable c : ascii.
Hypothesis not_space : is_space c = false.
Hypothesis not_last2 : forall x, is_space2 x c = false.
Hypothesis not_first2 : forall x, is_space2 c x = false.
Hypothesis not_first3 : forall x y, is_space3 c x y = false.
Hypothesis not_middle3 : forall x y, is_space3 x c y = false.
Hypothesis not_last3 : forall x y, is_space3 x y c = false.

Lemma lstrip_reversed_stops (b : list ascii) :
  lstrip_reversed (c :: b) = c :: b.
Proof.
  destruct b as [|c2 [|c3 r3]]; simpl;
    rewrite ?not_space, ?not_last2, ?not_last3; reflexivity.
Qed.

(** Stripping goes no further than a character that is no part of white
    space. *)
Lemma lstrip_reversed_app (n : nat) (a b : list ascii) :
  (List.length a <= n)%nat ->
  lstrip_reversed (a ++ c :: b) = lstrip_reversed a ++ c :: b.
Proof.
  revert a. induction n as [|n IH]; intros a L.
  - destruct a; [apply lstrip_reversed_stops|simpl in L; lia].
  - destruct a as [|x [|y [|z a]]].
    + apply lstrip_reversed_stops.
    + cbn [app lstrip_reversed]. destruct (is_space x).
      * apply lstrip_reversed_stops.
      * rewrite not_first2.
        destruct b as [|c3 r3]; [reflexivity|now rewrite not_middle3].
    + cbn [app lstrip_reversed]. destruct (is_space x).
      * destruct (is_space y).
        -- apply lstrip_reversed_stops.
        -- rewrite not_first2.
           destruct b as [|c3 r3]; [reflexivity|now rewrite not_middle3].
      * destruct (is_space2 y x); [apply lstrip_reversed_stops|].
        now rewrite not_first3.
    + change ((x :: y :: z :: a) ++ c :: b)
        with (x :: y :: z :: (a ++ c :: b)).
      simpl in L.
      assert (L1 : (List.length (y :: z :: a) <= n)%nat) by (simpl; lia).
      assert (L2 : (List.length (z :: a) <= n)%nat) by (simpl; lia).
      assert (L3 : (List.length a <= n)%nat) by lia.
      pose proof (IH _ L1) as I1. pose proof (IH _ L2) as I2.
      pose proof (IH _ L3) as I3.
      change ((y :: z :: a) ++ c :: b) with (y :: z :: (a ++ c :: b)) in I1.
      change ((z :: a) ++ c :: b) with (z :: (a ++ c :: b)) in I2.
      cbn [lstrip_reversed] in *.
      destruct (is_space x); [exact I1|].
      destruct (is_space2 y x); [exact I2|].
      destruct (is_space3 z y x); [exact I3|reflexivity].
Qed.
End Stopper.

Lemma lstrip_reversed_suffix (n : nat) (l : list ascii) :
  (List.length l <= n)%nat -> exists ws, l = ws ++ lstrip_reversed l.
Proof.
  revert l. induction n as [|n IH]; intros l L.
  - destruct l; [now exists []|simpl in L; lia].
  - destruct l as [|x [|y [|z a]]].
    + now exists [].
    + simpl. destruct (is_space x); [now exists [x]|now exists []].
    + simpl in *. destruct (is_space x).
      * destruct (is_space y); [now exists [x; y]|now exists [x]].
      * destruct (is_space2 y x); [now exists [x; y]|now exists []].
    + simpl in L.
      destruct (IH (y :: z :: a)) as [w1 E1]; [simpl; lia|].
      destruct (IH (z :: a)) as [w2 E2]; [simpl; lia|].
      destruct (IH a) as [w3 E3]; [lia|].
      cbn [lstrip_reversed] in *.
      destruct (is_space x); [exists (x :: w1); simpl; now rewrite <- E1|].
      destruct (is_space2 y x);
        [exists (x :: y :: w2); simpl; now rewrite <- E2|].
      destruct (is_space3 z y x);
        [exists (x :: y :: z :: w3); simpl; now rewrite <- E3|].
      now exists [].
Qed.

(** Removing trailing white space does not change whether a text starts with
    a word whose last character is no part of white space. *)
Lemma rstrip_keeps_prefix (w0 : list ascii) (c : ascii) (t : list ascii) :
  is_space c = false ->
  (forall x, is_space2 x c = false) -> (forall x, is_space2 c x = false) ->
  (forall x y, is_space3 c x y = false) ->
  (forall x y, is_space3 x c y = false) ->
  (forall x y, is_space3 x y c = false) ->
  (exists u, rev (lstrip_reversed (rev t)) = (w0 ++ [c]) ++ u) <->
  (exists u, t = (w0 ++ [c]) ++ u).
Proof.
  intros H1 H2 H3 H4 H5 H6. split; intros [u E].
  - destruct (lstrip_reversed_suffix _ (rev t) (Nat.le_refl _)) as [ws S].
    apply (f_equal (@rev ascii)) in S.
    rewrite rev_involutive, rev_app_distr in S.
    rewrite E in S. exists (u ++ rev ws). now rewrite app_assoc.
  - subst t. rewrite rev_app_distr, rev_app_distr. simpl.
    rewrite (lstrip_reversed_app c H1 H2 H3 H4 H5 H6 _ _ _ (Nat.le_refl _)).
    rewrite rev_app_distr. simpl. rewrite rev_involutive.
    exists (rev (lstrip_reversed (rev u))). now rewrite <- app_assoc.
Qed.

Lemma letter_l_is_no_white_space :
  is_space "l" = false /\
  (forall x, is_space2 x "l" = false) /\ (forall x, is_space2 "l" x = false) /\
  (forall x y, is_space3 "l" x y = false) /\
  (forall x y, is_space3 x "l" y = false) /\
  (forall x y, is_space3 x y "l" = false).
Proof.
  unfold is_space2, is_space3. change (N_of_ascii "l") with 108%N.
  repeat split; intros;
    repeat match goal with
           | |- context [(N_of_ascii ?v =? ?k)%N] =>
               destruct (N_of_ascii v =? k)%N
           | |- context [(?k <=? N_of_ascii ?v)%N] =>
               destruct (k <=? N_of_ascii v)%N
           | |- context [(N_of_ascii ?v <=? ?k)%N] =>
               destruct (N_of_ascii v <=? k)%N
           end; reflexivity.
Qed.

(** The guard of the Postgres loaders lets a URL through exactly when the
    URL, after its leading white space (in the sense of [str.strip]), starts
    with [postgresql]; an empty URL is refused and trailing white space plays
    no part. *)
Theorem bad_url_iff_no_postgresql_prefix (url : string) :
  bad_url url = negb (String.prefix "postgresql" (lstrip url)).
Proof.
  assert (E : String.prefix "postgresql" (strip url)
              = String.prefix "postgresql" (lstrip url)).
  { apply eq_true_iff_eq. rewrite !prefix_as_chars.
    unfold strip, rstrip. rewrite list_ascii_of_string_of_list_ascii.
    change (list_ascii_of_string "postgresql")
      with (list_ascii_of_string "postgresq" ++ ["l"%char]).
    destruct letter_l_is_no_white_space as (H1 & H2 & H3 & H4 & H5 & H6).
    now apply rstrip_keeps_prefix. }
  unfold bad_url. rewrite E.
  destruct url as [|c url]; reflexivity.
Qed.

(** ** The order of the rows and the integer columns *)

Lemma platform_sums64_as_map (df : DataFrame) :
  platform_sums64 df =
  map (fun k => agg_platform64 (k, rows_of_platform k df))
      (keys (groupby platform df)).
Proof.
  unfold platform_sums64, keys. rewrite map_map. apply map_ext_in.
  intros [k rows] I. simpl. apply groupby_In in I. subst rows.
  unfold rows_of_platform. do 2 f_equal. apply filter_ext.
  intros r. apply string_keqb.
Qed.

(** A column of the table that does not depend on the spends, computed key
    by key. *)
Lemma by_platform64_column {B : Type} (col : PlatformSummary -> B)
  (f : string -> DataFrame -> B) (df : DataFrame) :
  (forall t k rows, col (derive64 t (agg_platform64 (k, rows))) = f k rows) ->
  map col (by_platform64 df)
  = map (fun k => f k (rows_of_platform k df)) (keys (groupby platform df)).
Proof.
  intros E. unfold by_platform64. cbv zeta.
  rewrite (platform_sums64_as_map df) at 2. rewrite !map_map.
  apply map_ext. intros k. apply E.
Qed.

Lemma column_perm {B : Type} (f : string -> DataFrame -> B) (df df' : DataFrame) :
  Permutation df df' ->
  (forall k, f k (rows_of_platform k df) = f k (rows_of_platform k df')) ->
  map (fun k => f k (rows_of_platform k df)) (keys (groupby platform df))
  = map (fun k => f k (rows_of_platform k df')) (keys (groupby platform df')).
Proof.
  intros P E. rewrite (platform_keys_perm df df' P).
  apply map_ext. exact E.
Qed.

(** Reordering the rows of the record set leaves unchanged the platforms of
    the table and their order, the impressions, clicks, conversions and
    [ctr_pct] of every row, and the Impressions, Clicks, Conversions and CTR
    tiles.  (The values computed from the spends are float sums, which depend
    on the order.) *)
Theorem row_order_and_integer_columns (df df' : DataFrame) :
  Permutation df df' ->
  map p_platform (by_platform64 df) = map p_platform (by_platform64 df') /\
  map p_impressions (by_platform64 df) = map p_impressions (by_platform64 df') /\
  map p_clicks (by_platform64 df) = map p_clicks (by_platform64 df') /\
  map p_conversions (by_platform64 df) = map p_conversions (by_platform64 df') /\
  map ctr_pct (by_platform64 df) = map ctr_pct (by_platform64 df') /\
  firstn 4 (tl (metrics64 df)) = firstn 4 (tl (metrics64 df')).
Proof.
  intros P.
  assert (S : forall (f : UnifiedRecord -> Z) k,
             sumZ (map f (rows_of_platform k df))
             = sumZ (map f (rows_of_platform k df')))
    by (intros; now apply sumZ_of_platform_perm).
  split; [|split; [|split; [|split; [|split]]]].
  - rewrite !(by_platform64_column p_platform (fun k _ => k))
      by reflexivity.
    now apply (column_perm (fun k _ => k)).
  - rewrite !(by_platform64_column p_impressions
                (fun _ rows => sumZ (map impressions rows))) by reflexivity.
    apply (column_perm (fun _ rows => sumZ (map impressions rows))); auto.
  - rewrite !(by_platform64_column p_clicks
                (fun _ rows => sumZ (map clicks rows))) by reflexivity.
    apply (column_perm (fun _ rows => sumZ (map clicks rows))); auto.
  - rewrite !(by_platform64_column p_conversions
                (fun _ rows => sumZ (map conversions rows))) by reflexivity.
    apply (column_perm (fun _ rows => sumZ (map conversions rows))); auto.
  - rewrite !(by_platform64_column ctr_pct
                (fun _ rows =>
                   fround64 2
                     (fmul64 (fdiv64 (of_int64 (sumZ (map clicks rows)))
                                     (of_int64 (sumZ (map impressions rows))))
                             (Fin 100)))) by reflexivity.
    apply (column_perm
             (fun _ rows =>
                fround64 2
                  (fmul64 (fdiv64 (of_int64 (sumZ (map clicks rows)))
                                  (of_int64 (sumZ (map impressions rows))))
                          (Fin 100)))); [exact P|].
    intros k. now rewrite (S clicks k), (S impressions k).
  - assert (Ei : tot_impressions df = tot_impressions df').
    { unfold tot_impressions. apply sumZ_perm. now apply Permutation_map. }
    assert (Ec : tot_clicks df = tot_clicks df').
    { unfold tot_clicks. apply sumZ_perm. now apply Permutation_map. }
    assert (Ev : tot_conversions df = tot_conversions df').
    { unfold tot_conversions. apply sumZ_perm. now apply Permutation_map. }
    unfold metrics64, overall_ctr64. cbn [tl firstn].
    now rewrite Ei, Ec, Ev.
Qed.

Lemma row_order_and_integer_columns_witness :
  map ctr_pct (by_platform64 (rev two_days)) = map ctr_pct (by_platform64 two_days) /\
  map p_conversions (by_platform64 (rev two_days))
    = map p_conversions (by_platform64 two_days).
Proof.
  assert (P : Permutation (rev two_days) two_days)
    by (symmetry; apply Permutation_rev).
  destruct (row_order_and_integer_columns (rev two_days) two_days P)
    as (_ & _ & _ & V & C & _).
  split; [exact C|exact V].
Defined.
